(** * Basket: a shallow embedding of the game rules, ball physics, player
    actions and the game-scene orchestrator.

    JavaScript numbers are modelled as real numbers ([R]); the only place
    where the code stores [Infinity] (the unlimited shot clock) is modelled
    by the type [clock].  Strings used as tags ('player' | 'ai', ball and
    game states) become inductive types; the scoring preset name, which is
    free text loaded from settings, stays a [string]. *)

From Stdlib Require Import Reals Psatz String ZArith List.

Open Scope R_scope.
Open Scope bool_scope.

(** ** config.js: the constants the claims depend on *)
Module CONFIG.
Definition COURT_WIDTH : R := 15.
Definition COURT_LENGTH : R := 14.
Definition THREE_POINT_RADIUS : R := 6.75.
Definition FREE_THROW_DISTANCE : R := 4.6.
Definition RIM_RADIUS : R := 0.23.
Definition RIM_HEIGHT : R := 3.05.
Definition BACKBOARD_WIDTH : R := 1.8.
Definition BACKBOARD_HEIGHT : R := 1.05.
Definition BACKBOARD_DISTANCE : R := 1.2.

Definition WIN_SCORE : Z := 11.
Definition SHOT_CLOCK_DEFAULT : R := 24.
Definition STEAL_COOLDOWN : R := 0.7.
Definition STEPBACK_COOLDOWN : R := 0.5.
Definition STEPBACK_INVULN_TIME : R := 0.15.

Definition PLAYER_RADIUS : R := 0.35.
Definition STAMINA_MAX : R := 100.
Definition LOW_STAMINA_THRESHOLD : R := 30.
Definition LOW_STAMINA_ACCURACY_PENALTY : R := 0.85.

Definition BALL_RADIUS : R := 0.12.
Definition GRAVITY : R := 9.81.
Definition BOUNCE_FACTOR : R := 0.75.
Definition FRICTION_GROUND : R := 0.95.
Definition FRICTION_AIR : R := 0.99.
Definition MIN_SHOT_POWER : R := 0.2.
Definition MAX_SHOT_POWER : R := 1.0.
Definition POWER_CHARGE_RATE : R := 1.2.
Definition MAGNETIC_WINDOW : R := 0.08.
Definition SHOT_BASE_SPEED : R := 6.0.
Definition SHOT_DISTANCE_FACTOR : R := 0.5.

(** [SCORING_STREET] and [SCORING_CLASSIC] *)
Record ScoringSystem := { INSIDE : Z; THREE_POINT : Z }.
Definition SCORING_STREET : ScoringSystem := {| INSIDE := 1; THREE_POINT := 2 |}.
Definition SCORING_CLASSIC : ScoringSystem := {| INSIDE := 2; THREE_POINT := 3 |}.

(** [AI.DIFFICULTIES.STANDARD.SHOT_ACCURACY] *)
Definition STANDARD_SHOT_ACCURACY : R := 0.75.

Definition KEY_WIDTH : R := 4.9.
Definition KEY_LENGTH : R := 5.8.
Definition FOUL_FREE_THROW_POINTS : Z := 1.

Definition BASE_SPEED : R := 3.6.
Definition SPRINT_MULTIPLIER : R := 2.0.
Definition ACCELERATION : R := 15.0.
Definition FRICTION : R := 12.0.
Definition STAMINA_SPRINT_DRAIN : R := 12.
Definition STAMINA_REGEN : R := 12.
Definition STAMINA_MIN_FOR_SPRINT : R := 5.
Definition LOW_STAMINA_SPEED_PENALTY : R := 0.8.
End CONFIG.

(** ** Comparisons of JavaScript numbers, as booleans *)
Definition Rltb (a b : R) : bool := if Rlt_dec a b then true else false.
Definition Rleb (a b : R) : bool := if Rle_dec a b then true else false.

(** ** core/Math.js *)
Definition distance (x1 y1 x2 y2 : R) : R :=
  let dx := x2 - x1 in
  let dy := y2 - y1 in
  sqrt (dx * dx + dy * dy).

Definition clamp (v lo hi : R) : R := Rmin (Rmax v lo) hi.

(** [Math.atan2] on reals (signed zeros ignored). *)
Definition atan2 (y x : R) : R :=
  if Rlt_dec 0 x then atan (y / x)
  else if Rlt_dec x 0 then
    (if Rle_dec 0 y then atan (y / x) + PI else atan (y / x) - PI)
  else if Rlt_dec 0 y then PI / 2
  else if Rlt_dec y 0 then - (PI / 2)
  else 0.

Definition angleTo (x1 y1 x2 y2 : R) : R := atan2 (y2 - y1) (x2 - x1).

(** ** Tags *)
Inductive team := TPlayer | TAi.          (* 'player' | 'ai' *)
Inductive ball_state := Free | Held | InFlight.
Inductive game_state := CheckBall | LiveBall | FreeThrow | GameOver.

Definition team_eqb (a b : team) : bool :=
  match a, b with TPlayer, TPlayer | TAi, TAi => true | _, _ => false end.

Definition other (t : team) : team := match t with TPlayer => TAi | TAi => TPlayer end.

(** A shot-clock value: a finite number or [Infinity]. *)
Inductive clock := Fin (r : R) | Infinity.

Definition clock_sub (c : clock) (dt : R) : clock :=
  match c with Fin r => Fin (r - dt) | Infinity => Infinity end.

(** [c <= 0]; [Infinity <= 0] is false. *)
Definition clock_le0 (c : clock) : bool :=
  match c with Fin r => Rleb r 0 | Infinity => false end.

(** ** game/Physics.js (the pure functions) *)

(** [isThreePoint]: distance from the rim at [(WIDTH/2, BACKBOARD_DISTANCE)]
    is at least the arc radius. *)
Definition isThreePoint (x y : R) : bool :=
  let rimX := CONFIG.COURT_WIDTH / 2 in
  let rimY := CONFIG.BACKBOARD_DISTANCE in
  let dist := distance x y rimX rimY in
  Rleb CONFIG.THREE_POINT_RADIUS dist.

Definition checkRimCollision (ballX ballY ballZ rimX rimY rimZ : R) : bool :=
  let heightDiff := Rabs (ballZ - rimZ) in
  if Rlt_dec (CONFIG.BALL_RADIUS * 2) heightDiff then false
  else
    let dist2D := distance ballX ballY rimX rimY in
    let threshold := CONFIG.RIM_RADIUS + CONFIG.MAGNETIC_WINDOW in
    Rleb dist2D threshold.

Definition checkBackboardCollision (ballX ballY ballZ boardX boardY : R) : bool :=
  let halfWidth := CONFIG.BACKBOARD_WIDTH / 2 in
  let boardMinY := boardY - 0.1 in
  let boardMaxY := boardY + 0.1 in
  if Rltb ballY boardMinY || Rltb boardMaxY ballY then false
  else if Rltb halfWidth (Rabs (ballX - boardX)) then false
  else
    let boardBottom := CONFIG.RIM_HEIGHT in
    let boardTop := boardBottom + CONFIG.BACKBOARD_HEIGHT in
    if Rltb ballZ boardBottom || Rltb boardTop ballZ then false else true.

Definition calculateOptimalShotPower (dist : R) : R :=
  CONFIG.SHOT_BASE_SPEED + dist * CONFIG.SHOT_DISTANCE_FACTOR.

(** ** config.js: GameSettings *)
Record GameSettings := mkSettings {
  shotClockDuration : clock;
  scoringSystem : string
}.

Definition getScoringSystem (s : GameSettings) : CONFIG.ScoringSystem :=
  if String.eqb (scoringSystem s) "street" then CONFIG.SCORING_STREET
  else CONFIG.SCORING_CLASSIC.

(** ** game/Rules.js *)
Module Rules.

Record Rules := mkRules {
  settings : GameSettings;
  playerScore : Z;
  aiScore : Z;
  possession : team;
  needsCheckBall : bool;
  shotClock : clock;
  shotClockActive : bool;
  gameState : game_state;
  playerShots : Z;
  playerMakes : Z;
  aiShots : Z;
  aiMakes : Z;
  fouls : Z
}.

Definition new (s : GameSettings) : Rules :=
  {| settings := s; playerScore := 0; aiScore := 0; possession := TPlayer;
     needsCheckBall := false; shotClock := shotClockDuration s;
     shotClockActive := false; gameState := CheckBall;
     playerShots := 0; playerMakes := 0; aiShots := 0; aiMakes := 0;
     fouls := 0 |}.

(** Field writes [this.f = v]. *)
Definition set_possession (r : Rules) (v : team) : Rules :=
  {| settings := settings r; playerScore := playerScore r; aiScore := aiScore r;
     possession := v; needsCheckBall := needsCheckBall r; shotClock := shotClock r;
     shotClockActive := shotClockActive r; gameState := gameState r;
     playerShots := playerShots r; playerMakes := playerMakes r;
     aiShots := aiShots r; aiMakes := aiMakes r; fouls := fouls r |}.
Definition set_needsCheckBall (r : Rules) (v : bool) : Rules :=
  {| settings := settings r; playerScore := playerScore r; aiScore := aiScore r;
     possession := possession r; needsCheckBall := v; shotClock := shotClock r;
     shotClockActive := shotClockActive r; gameState := gameState r;
     playerShots := playerShots r; playerMakes := playerMakes r;
     aiShots := aiShots r; aiMakes := aiMakes r; fouls := fouls r |}.
Definition set_shotClock (r : Rules) (v : clock) : Rules :=
  {| settings := settings r; playerScore := playerScore r; aiScore := aiScore r;
     possession := possession r; needsCheckBall := needsCheckBall r; shotClock := v;
     shotClockActive := shotClockActive r; gameState := gameState r;
     playerShots := playerShots r; playerMakes := playerMakes r;
     aiShots := aiShots r; aiMakes := aiMakes r; fouls := fouls r |}.
Definition set_shotClockActive (r : Rules) (v : bool) : Rules :=
  {| settings := settings r; playerScore := playerScore r; aiScore := aiScore r;
     possession := possession r; needsCheckBall := needsCheckBall r;
     shotClock := shotClock r; shotClockActive := v; gameState := gameState r;
     playerShots := playerShots r; playerMakes := playerMakes r;
     aiShots := aiShots r; aiMakes := aiMakes r; fouls := fouls r |}.
Definition set_gameState (r : Rules) (v : game_state) : Rules :=
  {| settings := settings r; playerScore := playerScore r; aiScore := aiScore r;
     possession := possession r; needsCheckBall := needsCheckBall r;
     shotClock := shotClock r; shotClockActive := shotClockActive r; gameState := v;
     playerShots := playerShots r; playerMakes := playerMakes r;
     aiShots := aiShots r; aiMakes := aiMakes r; fouls := fouls r |}.
(** [this.playerScore += points; this.stats.playerMakes++] *)
Definition credit_player (r : Rules) (points : Z) : Rules :=
  {| settings := settings r; playerScore := (playerScore r + points)%Z;
     aiScore := aiScore r; possession := possession r;
     needsCheckBall := needsCheckBall r; shotClock := shotClock r;
     shotClockActive := shotClockActive r; gameState := gameState r;
     playerShots := playerShots r; playerMakes := (playerMakes r + 1)%Z;
     aiShots := aiShots r; aiMakes := aiMakes r; fouls := fouls r |}.
(** [this.aiScore += points; this.stats.aiMakes++] *)
Definition credit_ai (r : Rules) (points : Z) : Rules :=
  {| settings := settings r; playerScore := playerScore r;
     aiScore := (aiScore r + points)%Z; possession := possession r;
     needsCheckBall := needsCheckBall r; shotClock := shotClock r;
     shotClockActive := shotClockActive r; gameState := gameState r;
     playerShots := playerShots r; playerMakes := playerMakes r;
     aiShots := aiShots r; aiMakes := (aiMakes r + 1)%Z; fouls := fouls r |}.

Definition resetShotClock (r : Rules) : Rules :=
  set_shotClock r (shotClockDuration (settings r)).

Definition changePossession (r : Rules) (newPossession : team) : Rules :=
  let r := set_possession r newPossession in
  let r := set_needsCheckBall r true in
  resetShotClock r.

Definition startLiveBall (r : Rules) : Rules :=
  let r := set_gameState r LiveBall in
  let r := set_needsCheckBall r false in
  let r := set_shotClockActive r true in
  resetShotClock r.

Definition resetToCheckBall (r : Rules) : Rules :=
  let r := set_gameState r CheckBall in
  let r := set_needsCheckBall r true in
  let r := set_shotClockActive r false in
  resetShotClock r.

Definition handleShotClockViolation (r : Rules) : Rules :=
  let newPossession := match possession r with TPlayer => TAi | TAi => TPlayer end in
  let r := changePossession r newPossession in
  let r := set_gameState r CheckBall in
  set_shotClockActive r false.

Definition is_liveBall (g : game_state) : bool :=
  match g with LiveBall => true | _ => false end.

Definition update (r : Rules) (dt : R) : Rules :=
  if shotClockActive r && is_liveBall (gameState r) then
    let r := set_shotClock r (clock_sub (shotClock r) dt) in
    if clock_le0 (shotClock r) then handleShotClockViolation r else r
  else r.

Definition scorePoints (r : Rules) (team : team) (shotX shotY : R) : Rules :=
  let scoring := getScoringSystem (settings r) in
  let points := if isThreePoint shotX shotY then CONFIG.THREE_POINT scoring
                else CONFIG.INSIDE scoring in
  let r := match team with
           | TPlayer => credit_player r points
           | TAi => credit_ai r points
           end in
  let r := changePossession r team in
  let r := set_needsCheckBall r true in
  let r := set_gameState r CheckBall in
  let r := set_shotClockActive r false in
  if Z.geb (playerScore r) CONFIG.WIN_SCORE then set_gameState r GameOver
  else if Z.geb (aiScore r) CONFIG.WIN_SCORE then set_gameState r GameOver
  else r.

Definition registerShotAttempt (r : Rules) (team : team) : Rules :=
  {| settings := settings r; playerScore := playerScore r; aiScore := aiScore r;
     possession := possession r; needsCheckBall := needsCheckBall r;
     shotClock := shotClock r; shotClockActive := shotClockActive r;
     gameState := gameState r;
     playerShots := match team with TPlayer => (playerShots r + 1)%Z | TAi => playerShots r end;
     playerMakes := playerMakes r;
     aiShots := match team with TAi => (aiShots r + 1)%Z | TPlayer => aiShots r end;
     aiMakes := aiMakes r; fouls := fouls r |}.

Definition needsClearBall (r : Rules) (ballX ballY : R) : bool := isThreePoint ballX ballY.

End Rules.

(** ** game/Ball.js: class Ball *)
Module Ball.

Record Ball := mkBall {
  x : R; y : R; z : R;
  vx : R; vy : R; vz : R;
  state : ball_state;
  holderId : option team;          (* null | 'player' | 'ai' *)
  hasScored : bool;
  isOutOfBounds : bool;
  justReleased : bool;
  rimX : R; rimY : R; rimZ : R;
  dribbleTime : R
}.

(** Writes to the position and velocity fields. *)
Definition with_kin (b : Ball) (x' y' z' vx' vy' vz' : R) : Ball :=
  {| x := x'; y := y'; z := z'; vx := vx'; vy := vy'; vz := vz';
     state := state b; holderId := holderId b; hasScored := hasScored b;
     isOutOfBounds := isOutOfBounds b; justReleased := justReleased b;
     rimX := rimX b; rimY := rimY b; rimZ := rimZ b; dribbleTime := dribbleTime b |}.

(** Writes to the state and flag fields. *)
Definition with_flags (b : Ball) (st : ball_state) (h : option team)
    (scored oob released : bool) : Ball :=
  {| x := x b; y := y b; z := z b; vx := vx b; vy := vy b; vz := vz b;
     state := st; holderId := h; hasScored := scored;
     isOutOfBounds := oob; justReleased := released;
     rimX := rimX b; rimY := rimY b; rimZ := rimZ b; dribbleTime := dribbleTime b |}.

Definition with_dribble (b : Ball) (t z' : R) : Ball :=
  {| x := x b; y := y b; z := z'; vx := vx b; vy := vy b; vz := vz b;
     state := state b; holderId := holderId b; hasScored := hasScored b;
     isOutOfBounds := isOutOfBounds b; justReleased := justReleased b;
     rimX := rimX b; rimY := rimY b; rimZ := rimZ b; dribbleTime := t |}.

Definition new : Ball :=
  {| x := CONFIG.COURT_WIDTH / 2; y := CONFIG.COURT_LENGTH / 2; z := 0;
     vx := 0; vy := 0; vz := 0; state := Free; holderId := None;
     hasScored := false; isOutOfBounds := false; justReleased := false;
     rimX := CONFIG.COURT_WIDTH / 2; rimY := CONFIG.BACKBOARD_DISTANCE;
     rimZ := CONFIG.RIM_HEIGHT; dribbleTime := 0 |}.

Definition attachTo (b : Ball) (playerId : team) (x' y' : R) : Ball :=
  let b := with_flags b Held (Some playerId) false false false in
  with_kin b x' y' 1.2 0 0 0.

(** [holderId] is kept: it records who shot. *)
Definition release (b : Ball) (vx' vy' vz' : R) : Ball :=
  let b := with_kin b (x b) (y b) (z b) vx' vy' vz' in
  with_flags b InFlight (holderId b) false (isOutOfBounds b) true.

Definition is_inFlight (b : Ball) : bool :=
  match state b with InFlight => true | _ => false end.

(** Gravity, position integration and air friction. *)
Definition integrate (b : Ball) (dt : R) : Ball :=
  let vz' := vz b - CONFIG.GRAVITY * dt in
  with_kin b (x b + vx b * dt) (y b + vy b * dt) (z b + vz' * dt)
    (vx b * CONFIG.FRICTION_AIR) (vy b * CONFIG.FRICTION_AIR) vz'.

(** Ground collision (the landing sound is omitted). *)
Definition ground (b : Ball) : Ball :=
  if Rleb (z b) CONFIG.BALL_RADIUS then
    let vz' := - vz b * CONFIG.BOUNCE_FACTOR in
    let b := with_kin b (x b) (y b) CONFIG.BALL_RADIUS
               (vx b * CONFIG.FRICTION_GROUND) (vy b * CONFIG.FRICTION_GROUND) vz' in
    let b := with_flags b (state b) (holderId b) (hasScored b) (isOutOfBounds b) false in
    if Rltb (Rabs vz') 0.5 then
      let b := with_kin b (x b) (y b) CONFIG.BALL_RADIUS (vx b) (vy b) 0 in
      with_flags b Free (holderId b) (hasScored b) (isOutOfBounds b) (justReleased b)
    else b
  else b.

(** Rim check, only while descending. *)
Definition rim (b : Ball) : Ball :=
  if is_inFlight b && Rltb (vz b) 0 && negb (hasScored b) then
    if checkRimCollision (x b) (y b) (z b) (rimX b) (rimY b) (rimZ b) then
      let b := with_flags b (state b) (holderId b) true (isOutOfBounds b) (justReleased b) in
      with_kin b (x b) (y b) (z b) (vx b) (vy b) (vz b * 0.7)
    else b
  else b.

Definition backboard (b : Ball) : Ball :=
  if is_inFlight b then
    if checkBackboardCollision (x b) (y b) (z b) (rimX b) (rimY b) then
      with_kin b (x b) (y b) (z b) (vx b) (- vy b * 0.6) (vz b * 0.8)
    else b
  else b.

Definition checkBounds (b : Ball) : Ball :=
  let margin := 0.3 in
  if Rltb (x b) (- margin) || Rltb (CONFIG.COURT_WIDTH + margin) (x b) ||
     Rltb (y b) (- margin) || Rltb (CONFIG.COURT_LENGTH + margin) (y b)
  then with_flags b (state b) (holderId b) (hasScored b) true (justReleased b)
  else b.

Definition update (b : Ball) (dt : R) : Ball :=
  match state b with
  | Held =>
      let t := dribbleTime b + dt in
      let bounceFrequency := 2.0 in
      with_dribble b t (1.2 + Rabs (sin (t * bounceFrequency * PI)) * 0.3)
  | _ => checkBounds (backboard (rim (ground (integrate b dt))))
  end.

Definition isScore (b : Ball) : bool := hasScored b && Rltb (z b) (rimZ b).

End Ball.

(** ** game/Player.js: class Player *)
Module Player.

Record Player := mkPlayer {
  x : R; y : R;
  stamina : R;
  hasBall : bool;
  shotPower : R;
  shotCharging : bool;
  shotAngle : R;
  stealCooldown : R;
  stepBackCooldown : R;
  invulnerableTime : R;
  rimX : R; rimY : R
}.

Definition with_pos (p : Player) (x' y' : R) : Player :=
  {| x := x'; y := y'; stamina := stamina p; hasBall := hasBall p;
     shotPower := shotPower p; shotCharging := shotCharging p;
     shotAngle := shotAngle p; stealCooldown := stealCooldown p;
     stepBackCooldown := stepBackCooldown p; invulnerableTime := invulnerableTime p;
     rimX := rimX p; rimY := rimY p |}.

(** Writes to [hasBall], [shotPower], [shotCharging], [shotAngle]. *)
Definition with_shot (p : Player) (hb : bool) (pw : R) (ch : bool) (a : R) : Player :=
  {| x := x p; y := y p; stamina := stamina p; hasBall := hb;
     shotPower := pw; shotCharging := ch; shotAngle := a;
     stealCooldown := stealCooldown p; stepBackCooldown := stepBackCooldown p;
     invulnerableTime := invulnerableTime p; rimX := rimX p; rimY := rimY p |}.

Definition set_hasBall (p : Player) (hb : bool) : Player :=
  with_shot p hb (shotPower p) (shotCharging p) (shotAngle p).

Definition set_stealCooldown (p : Player) (c : R) : Player :=
  {| x := x p; y := y p; stamina := stamina p; hasBall := hasBall p;
     shotPower := shotPower p; shotCharging := shotCharging p;
     shotAngle := shotAngle p; stealCooldown := c;
     stepBackCooldown := stepBackCooldown p; invulnerableTime := invulnerableTime p;
     rimX := rimX p; rimY := rimY p |}.

Definition new (x' y' : R) : Player :=
  {| x := x'; y := y'; stamina := CONFIG.STAMINA_MAX; hasBall := false;
     shotPower := 0; shotCharging := false; shotAngle := 0;
     stealCooldown := 0; stepBackCooldown := 0; invulnerableTime := 0;
     rimX := CONFIG.COURT_WIDTH / 2; rimY := CONFIG.BACKBOARD_DISTANCE |}.

Definition startShot (p : Player) (angle : R) : Player :=
  if negb (hasBall p) then p
  else with_shot p (hasBall p) 0 true angle.

Definition chargeShot (p : Player) (dt : R) : Player :=
  if negb (shotCharging p) then p
  else
    let pw := shotPower p + CONFIG.POWER_CHARGE_RATE * dt in
    let pw := clamp pw CONFIG.MIN_SHOT_POWER CONFIG.MAX_SHOT_POWER in
    with_shot p (hasBall p) pw (shotCharging p) (shotAngle p).

(** The launch vector [{vx, vy, vz, power}] returned by [executeShot]. *)
Record ShotData := mkShot { svx : R; svy : R; svz : R; power : R }.

Definition executeShot (p : Player) : Player * option ShotData :=
  if negb (shotCharging p) || negb (hasBall p) then (p, None)
  else
    let distToRim := distance (x p) (y p) (rimX p) (rimY p) in
    let optimalPower := calculateOptimalShotPower distToRim in
    let accuracy := if Rltb (stamina p) CONFIG.LOW_STAMINA_THRESHOLD
                    then CONFIG.LOW_STAMINA_ACCURACY_PENALTY else 1.0 in
    let angleToRim := angleTo (x p) (y p) (rimX p) (rimY p) in
    let horizontalSpeed := shotPower p * optimalPower * accuracy in
    let vx := cos angleToRim * horizontalSpeed in
    let vy := sin angleToRim * horizontalSpeed in
    let vz := sqrt (2 * CONFIG.GRAVITY * CONFIG.RIM_HEIGHT) * (0.8 + shotPower p * 0.4) in
    let p' := with_shot p false (shotPower p) false (shotAngle p) in
    (p', Some {| svx := vx; svy := vy; svz := vz; power := shotPower p |}).

(** [attemptSteal]; [random] is the value [Math.random()] returns, in [0, 1). *)
Definition attemptSteal (self target : Player) (random : R) : Player * bool :=
  if Rltb 0 (stealCooldown self) then (self, false)
  else if negb (hasBall target) then (self, false)
  else if Rltb 0 (invulnerableTime target) then (self, false)
  else
    let dist := distance (x self) (y self) (x target) (y target) in
    if Rltb (CONFIG.PLAYER_RADIUS * 3) dist then (self, false)
    else
      let self := set_stealCooldown self CONFIG.STEAL_COOLDOWN in
      let successChance := 0.3 * (1 - dist / (CONFIG.PLAYER_RADIUS * 3)) in
      (self, Rltb random successChance).

Definition getBallPosition (p : Player) : R * R * R := (x p, y p, 1.2).

End Player.

(** ** game/Physics.js: [resolvePlayerCollision] mutates both players; the
    pair of updated players is returned. *)
Definition resolvePlayerCollision (p1 p2 : Player.Player) : Player.Player * Player.Player :=
  let dist := distance (Player.x p1) (Player.y p1) (Player.x p2) (Player.y p2) in
  let minDist := CONFIG.PLAYER_RADIUS * 2 in
  if Rltb dist minDist && Rltb 0 dist then
    let nx := (Player.x p2 - Player.x p1) / dist in
    let ny := (Player.y p2 - Player.y p1) / dist in
    let overlap := minDist - dist in
    let pushX := nx * overlap * 0.5 in
    let pushY := ny * overlap * 0.5 in
    (Player.with_pos p1 (Player.x p1 - pushX) (Player.y p1 - pushY),
     Player.with_pos p2 (Player.x p2 + pushX) (Player.y p2 + pushY))
  else (p1, p2).

(** ** scenes/GameScene.js: class GameScene (the parts that move the ball
    between players and drive the rules). *)
Module GameScene.
Import Player Ball.

Record Scene := mkScene {
  player : Player.Player;
  ai : Player.Player;
  ball : Ball.Ball;
  rules : Rules.Rules;
  outOfBoundsTimer : option R     (* null | seconds left *)
}.

Definition with_player (s : Scene) (p : Player.Player) : Scene :=
  {| player := p; ai := ai s; ball := ball s; rules := rules s;
     outOfBoundsTimer := outOfBoundsTimer s |}.
Definition with_ai (s : Scene) (p : Player.Player) : Scene :=
  {| player := player s; ai := p; ball := ball s; rules := rules s;
     outOfBoundsTimer := outOfBoundsTimer s |}.
Definition with_ball (s : Scene) (b : Ball.Ball) : Scene :=
  {| player := player s; ai := ai s; ball := b; rules := rules s;
     outOfBoundsTimer := outOfBoundsTimer s |}.
Definition with_rules (s : Scene) (r : Rules.Rules) : Scene :=
  {| player := player s; ai := ai s; ball := ball s; rules := r;
     outOfBoundsTimer := outOfBoundsTimer s |}.
Definition with_timer (s : Scene) (t : option R) : Scene :=
  {| player := player s; ai := ai s; ball := ball s; rules := rules s;
     outOfBoundsTimer := t |}.

Definition setupInitialPositions (s : Scene) : Scene :=
  let checkX := CONFIG.COURT_WIDTH / 2 in
  let checkY := CONFIG.FREE_THROW_DISTANCE + CONFIG.BACKBOARD_DISTANCE in
  let s := with_player s (set_hasBall (player s) false) in
  let s := with_ai s (set_hasBall (ai s) false) in
  match Rules.possession (rules s) with
  | TPlayer =>
      let s := with_player s (with_pos (player s) checkX (checkY + 2)) in
      let s := with_ai s (with_pos (ai s) checkX (checkY - 2)) in
      let s := with_player s (set_hasBall (player s) true) in
      let '(bx, by', _) := getBallPosition (player s) in
      with_ball s (attachTo (ball s) TPlayer bx by')
  | TAi =>
      let s := with_ai s (with_pos (ai s) checkX (checkY + 2)) in
      let s := with_player s (with_pos (player s) checkX (checkY - 2)) in
      let s := with_ai s (set_hasBall (ai s) true) in
      let '(bx, by', _) := getBallPosition (ai s) in
      with_ball s (attachTo (ball s) TAi bx by')
  end.

(** [enter]: [createEntities], [new Rules(settings)], [setupInitialPositions]. *)
Definition enter (settings : GameSettings) : Scene :=
  setupInitialPositions
    {| player := Player.new (CONFIG.COURT_WIDTH / 2) (CONFIG.COURT_LENGTH * 0.7);
       ai := Player.new (CONFIG.COURT_WIDTH / 2) (CONFIG.COURT_LENGTH * 0.3);
       ball := Ball.new; rules := Rules.new settings; outOfBoundsTimer := None |}.

(** One pickup test of [handleBallPickup]: [who] takes the ball, the other
    side is cleared, the ball is held by [who], possession follows. *)
Definition pickup_by (s : Scene) (who : team) : Scene :=
  let s := match who with
           | TPlayer => with_ai (with_player s (set_hasBall (player s) true))
                                (set_hasBall (ai s) false)
           | TAi => with_player (with_ai s (set_hasBall (ai s) true))
                                (set_hasBall (player s) false)
           end in
  let b := ball s in
  let s := with_ball s (with_flags b Held (Some who) (hasScored b) false (justReleased b)) in
  if team_eqb (Rules.possession (rules s)) who then s
  else with_rules s (Rules.changePossession (rules s) who).

Definition handleBallPickup (s : Scene) : Scene :=
  let pickupRadius := CONFIG.PLAYER_RADIUS * 3 in
  let distToPlayer := distance (Ball.x (ball s)) (Ball.y (ball s))
                        (Player.x (player s)) (Player.y (player s)) in
  let s := if Rltb distToPlayer pickupRadius then pickup_by s TPlayer else s in
  let distToAI := distance (Ball.x (ball s)) (Ball.y (ball s))
                    (Player.x (ai s)) (Player.y (ai s)) in
  if Rltb distToAI pickupRadius then pickup_by s TAi else s.

(** The steal branch of [handlePlayerInput] (right click while the human
    has no ball); [random] is [Math.random()]. *)
Definition player_steal (s : Scene) (random : R) : Scene :=
  let '(p, ok) := attemptSteal (player s) (ai s) random in
  let s := with_player s p in
  if ok then
    let s := with_ai s (set_hasBall (ai s) false) in
    let s := with_player s (set_hasBall (player s) true) in
    let b := ball s in
    with_ball s (with_flags b Held (Some TPlayer) (hasScored b)
                   (isOutOfBounds b) (justReleased b))
  else s.

(** The shot branch of [handlePlayerInput] (left button). *)
Definition player_shot_input (s : Scene) (isDown : bool) (dt : R) : Scene :=
  if hasBall (player s) then
    let s := if isDown && negb (shotCharging (player s)) then
               let angleToRim := atan2 (Ball.rimY (ball s) - Player.y (player s))
                                       (Ball.rimX (ball s) - Player.x (player s)) in
               with_player s (startShot (player s) angleToRim)
             else s in
    if shotCharging (player s) then
      if isDown then with_player s (chargeShot (player s) dt)
      else
        let '(p, shot) := executeShot (player s) in
        let s := with_player s p in
        match shot with
        | Some d =>
            let s := with_rules s (Rules.registerShotAttempt (rules s) TPlayer) in
            with_ball s (release (ball s) (svx d) (svy d) (svz d))
        | None => s
        end
    else s
  else s.

(** [AIController.calculateOptimalPowerForDistance]; [shotAccuracy] is the
    difficulty's [SHOT_ACCURACY]. *)
Definition calculateOptimalPowerForDistance (shotAccuracy dist : R) : R :=
  let baseSpeed := calculateOptimalShotPower dist in
  let normalized := baseSpeed / (CONFIG.SHOT_BASE_SPEED + 7 * CONFIG.SHOT_DISTANCE_FACTOR) in
  Rmin (normalized * shotAccuracy) CONFIG.MAX_SHOT_POWER.

(** [AIController.executeShoot] acting on the AI's player and the ball (the
    controller's own [state] field is not modelled). *)
Definition ai_executeShoot (shotAccuracy : R) (s : Scene) : Scene :=
  if negb (hasBall (ai s)) then s
  else
    let rimX := CONFIG.COURT_WIDTH / 2 in
    let rimY := CONFIG.BACKBOARD_DISTANCE in
    let s := if negb (shotCharging (ai s)) then
               with_ai s (startShot (ai s) (angleTo (Player.x (ai s)) (Player.y (ai s)) rimX rimY))
             else s in
    let distToRim := distance (Player.x (ai s)) (Player.y (ai s)) rimX rimY in
    let optimalPower := calculateOptimalPowerForDistance shotAccuracy distToRim in
    let s := with_ai s (chargeShot (ai s) (1 / 60)) in
    if Rleb (optimalPower - 0.1) (shotPower (ai s)) then
      let '(p, shot) := executeShot (ai s) in
      let s := with_ai s p in
      match shot with
      | Some d => with_ball s (release (ball s) (svx d) (svy d) (svz d))
      | None => s
      end
    else s.

(** [AIController.executeLayup]; [moveToTarget] only changes velocities,
    which are not modelled. *)
Definition ai_executeLayup (s : Scene) : Scene :=
  if negb (hasBall (ai s)) then s
  else
    let rimX := CONFIG.COURT_WIDTH / 2 in
    let rimY := CONFIG.BACKBOARD_DISTANCE in
    let distToRim := distance (Player.x (ai s)) (Player.y (ai s)) rimX rimY in
    if Rltb distToRim 1.5 then
      let a := startShot (ai s) (angleTo (Player.x (ai s)) (Player.y (ai s)) rimX rimY) in
      let a := with_shot a (hasBall a) 0.6 (shotCharging a) (shotAngle a) in
      let '(p, shot) := executeShot a in
      let s := with_ai s p in
      match shot with
      | Some d => with_ball s (release (ball s) (svx d) (svy d) (svz d))
      | None => s
      end
    else s.

(** The out-of-bounds part of [handleLiveBall]; the boolean is [true] when
    the method returns early. *)
Definition handleOutOfBounds (s : Scene) (dt : R) : Scene * bool :=
  if isOutOfBounds (ball s) then
    match outOfBoundsTimer s with
    | None => (with_timer s (Some 3.0), false)
    | Some t =>
        let t := t - dt in
        let s := with_timer s (Some t) in
        if Rleb t 0 then
          let lastPossession := match holderId (ball s) with
                                | Some h => h
                                | None => Rules.possession (rules s)
                                end in
          let newPossession := match lastPossession with TPlayer => TAi | TAi => TPlayer end in
          let s := with_rules s (Rules.changePossession (rules s) newPossession) in
          let s := with_player s (set_hasBall (player s) false) in
          let s := with_ai s (set_hasBall (ai s) false) in
          let s := setupInitialPositions s in
          (with_timer s None, true)
        else (s, false)
    end
  else
    match outOfBoundsTimer s with
    | Some _ => (with_timer s None, false)
    | None => (s, false)
    end.

(** The scoring part of [handleLiveBall]. *)
Definition handleScore (s : Scene) : Scene * bool :=
  if isScore (ball s) then
    let shooter := match holderId (ball s) with
                   | Some h => h
                   | None => if hasBall (player s) then TPlayer else TAi
                   end in
    let shooterEntity := match shooter with TPlayer => player s | TAi => ai s end in
    let s := with_rules s (Rules.scorePoints (rules s) shooter
                             (Player.x shooterEntity) (Player.y shooterEntity)) in
    let s := with_player s (set_hasBall (player s) false) in
    let s := with_ai s (set_hasBall (ai s) false) in
    let s := with_timer s None in
    (setupInitialPositions s, true)
  else (s, false).

(** [update]: the rules tick and the reset on a [liveBall -> checkBall]
    transition. *)
Definition tickRules (s : Scene) (dt : R) : Scene :=
  let prevState := Rules.gameState (rules s) in
  let s := with_rules s (Rules.update (rules s) dt) in
  match prevState, Rules.gameState (rules s) with
  | LiveBall, CheckBall => setupInitialPositions s
  | _, _ => s
  end.

(** The emergency reset of [handlePause] (key R); player velocities are
    not modelled. *)
Definition handleResetKey (s : Scene) : Scene :=
  let lastPossession :=
    if hasBall (player s) then TPlayer
    else if hasBall (ai s) then TAi
    else match holderId (ball s) with
         | Some h => h
         | None =>
             match Ball.state (ball s) with
             | Held =>
                 let dP := distance (Player.x (player s)) (Player.y (player s))
                             (Ball.x (ball s)) (Ball.y (ball s)) in
                 let dA := distance (Player.x (ai s)) (Player.y (ai s))
                             (Ball.x (ball s)) (Ball.y (ball s)) in
                 if Rltb dP dA then TPlayer else TAi
             | _ => Rules.possession (rules s)
             end
         end in
  let currentPossession := match lastPossession with TPlayer => TAi | TAi => TPlayer end in
  let s := with_player s (set_hasBall (player s) false) in
  let s := with_ai s (set_hasBall (ai s) false) in
  let b := ball s in
  let b := with_kin b (Ball.x b) (Ball.y b) (Ball.z b) 0 0 0 in
  let b := with_flags b (Ball.state b) (holderId b) false false (justReleased b) in
  let s := with_ball s b in
  let s := with_rules s (Rules.set_possession (rules s) currentPossession) in
  let s := with_rules s (Rules.resetToCheckBall (rules s)) in
  let s := match currentPossession with
           | TPlayer =>
               let s := with_player s (set_hasBall (player s) true) in
               with_ball s (attachTo (ball s) TPlayer (Player.x (player s)) (Player.y (player s)))
           | TAi =>
               let s := with_ai s (set_hasBall (ai s) true) in
               with_ball s (attachTo (ball s) TAi (Player.x (ai s)) (Player.y (ai s)))
           end in
  with_timer s None.

End GameScene.

(** ** The orchestrator as a step relation.

    Every code site of [GameScene] and [AIController] that writes
    [hasBall] or [shotCharging] is one constructor, applied at any scene.
    The remaining per-tick work (movement, AI steering, timers, player
    collisions, clamping, [updateBallPosition]) writes neither flag; it is
    covered by [step_env], which may replace both players by any records
    with the same two flags and the ball by any ball.  The relation thus
    over-approximates the ticks of the game, which is sound for invariants. *)
Module Orchestrator.
Import GameScene.

Definition same_flags (p q : Player.Player) : Prop :=
  Player.hasBall p = Player.hasBall q /\ Player.shotCharging p = Player.shotCharging q.

Inductive step : Scene -> Scene -> Prop :=
| step_tick s dt : step s (tickRules s dt)
| step_startLive s : step s (with_rules s (Rules.startLiveBall (rules s)))
| step_setup s : step s (setupInitialPositions s)
| step_pickup s : Ball.state (ball s) = Free -> step s (handleBallPickup s)
| step_steal s u : Player.hasBall (player s) = false -> step s (player_steal s u)
| step_shot s isDown dt : step s (player_shot_input s isDown dt)
| step_ai_shoot s acc : step s (ai_executeShoot acc s)
| step_ai_layup s : step s (ai_executeLayup s)
| step_oob s dt : step s (fst (handleOutOfBounds s dt))
| step_score s : step s (fst (handleScore s))
| step_reset s : step s (handleResetKey s)
| step_ball s dt : step s (with_ball s (Ball.update (ball s) dt))
| step_env s p a b :
    same_flags p (player s) -> same_flags a (ai s) ->
    step s {| player := p; ai := a; ball := b; rules := rules s;
              outOfBoundsTimer := outOfBoundsTimer s |}.

Inductive steps : Scene -> Scene -> Prop :=
| steps_refl s : steps s s
| steps_cons s1 s2 s3 : step s1 s2 -> steps s2 s3 -> steps s1 s3.

Definition reachable (s : Scene) : Prop :=
  exists settings, steps (enter settings) s.

(** At most one player holds the ball. *)
Definition one_holder (s : Scene) : Prop :=
  Player.hasBall (player s) = false \/ Player.hasBall (ai s) = false.

(** A charging player holds the ball. *)
Definition charging_holds (p : Player.Player) : Prop :=
  Player.shotCharging p = true -> Player.hasBall p = true.

End Orchestrator.

(** ** game/Physics.js: the remaining helpers, and [circleIntersect] of
    core/Math.js *)
Definition circleIntersect (x1 y1 r1 x2 y2 r2 : R) : bool :=
  let dist := distance x1 y1 x2 y2 in
  Rltb dist (r1 + r2).

Definition checkPlayerCollision (p1 p2 : Player.Player) : bool :=
  circleIntersect (Player.x p1) (Player.y p1) CONFIG.PLAYER_RADIUS
                  (Player.x p2) (Player.y p2) CONFIG.PLAYER_RADIUS.

(** [clampToCourtBounds] mutates the entity's position; the updated player
    is returned.  The four tests run in order, each on the value the
    previous one left. *)
Definition clampToCourtBounds (entity : Player.Player) : Player.Player :=
  let margin := CONFIG.PLAYER_RADIUS in
  let maxX := CONFIG.COURT_WIDTH - margin in
  let maxY := CONFIG.COURT_LENGTH - margin in
  let x := Player.x entity in
  let x := if Rltb x margin then margin else x in
  let x := if Rltb maxX x then maxX else x in
  let y := Player.y entity in
  let y := if Rltb y margin then margin else y in
  let y := if Rltb maxY y then maxY else y in
  Player.with_pos entity x y.

Definition isInKey (x y : R) : bool :=
  let keyLeft := (CONFIG.COURT_WIDTH - CONFIG.KEY_WIDTH) / 2 in
  let keyRight := keyLeft + CONFIG.KEY_WIDTH in
  let keyTop := CONFIG.BACKBOARD_DISTANCE in
  let keyBottom := keyTop + CONFIG.KEY_LENGTH in
  Rleb keyLeft x && Rleb x keyRight && Rleb keyTop y && Rleb y keyBottom.

(** ** game/Player.js: movement, stamina, timers and step-back.

    These methods read and write fields that [Player.Player] leaves out:
    the velocity, the facing angle, the sprint flag and the animation
    state.  They live in [Body]; a JavaScript [Player] object is the pair
    of a [Player.Player] and a [Body]. *)
Module PlayerMotion.
Import Player.

Inductive anim := Idle | Run | Dribble | Shoot.   (* this.state *)

Record Body := mkBody {
  vx : R; vy : R;
  facing : R;
  isSprinting : bool;
  stateTime : R;
  animState : anim
}.

Definition with_velocity (b : Body) (vx' vy' : R) : Body :=
  {| vx := vx'; vy := vy'; facing := facing b; isSprinting := isSprinting b;
     stateTime := stateTime b; animState := animState b |}.
Definition set_facing (b : Body) (f : R) : Body :=
  {| vx := vx b; vy := vy b; facing := f; isSprinting := isSprinting b;
     stateTime := stateTime b; animState := animState b |}.
Definition set_sprinting (b : Body) (v : bool) : Body :=
  {| vx := vx b; vy := vy b; facing := facing b; isSprinting := v;
     stateTime := stateTime b; animState := animState b |}.
Definition set_stateTime (b : Body) (t : R) : Body :=
  {| vx := vx b; vy := vy b; facing := facing b; isSprinting := isSprinting b;
     stateTime := t; animState := animState b |}.
Definition set_anim (b : Body) (a : anim) : Body :=
  {| vx := vx b; vy := vy b; facing := facing b; isSprinting := isSprinting b;
     stateTime := stateTime b; animState := a |}.

Definition set_stamina (p : Player) (v : R) : Player :=
  {| x := x p; y := y p; stamina := v; hasBall := hasBall p;
     shotPower := shotPower p; shotCharging := shotCharging p;
     shotAngle := shotAngle p; stealCooldown := stealCooldown p;
     stepBackCooldown := stepBackCooldown p; invulnerableTime := invulnerableTime p;
     rimX := rimX p; rimY := rimY p |}.
(** Writes to [stealCooldown], [stepBackCooldown], [invulnerableTime]. *)
Definition set_timers (p : Player) (sc sb inv : R) : Player :=
  {| x := x p; y := y p; stamina := stamina p; hasBall := hasBall p;
     shotPower := shotPower p; shotCharging := shotCharging p;
     shotAngle := shotAngle p; stealCooldown := sc;
     stepBackCooldown := sb; invulnerableTime := inv;
     rimX := rimX p; rimY := rimY p |}.

(** [a !== b] on numbers (NaN not modelled). *)
Definition Reqb (a b : R) : bool := if Req_EM_T a b then true else false.

Definition getEffectiveSpeed (p : Player) (b : Body) : R :=
  let speed := CONFIG.BASE_SPEED in
  let speed := if isSprinting b && Rltb CONFIG.STAMINA_MIN_FOR_SPRINT (stamina p)
               then speed * CONFIG.SPRINT_MULTIPLIER else speed in
  if Rltb (stamina p) CONFIG.LOW_STAMINA_THRESHOLD
  then speed * CONFIG.LOW_STAMINA_SPEED_PENALTY else speed.

Definition applyMovement (p : Player) (b : Body) (dirX dirY : R) : Body :=
  let speed := getEffectiveSpeed p b in
  let accel := CONFIG.ACCELERATION in
  let vx1 := vx b + dirX * accel * (1 / 60) in
  let vy1 := vy b + dirY * accel * (1 / 60) in
  let currentSpeed := sqrt (vx1 * vx1 + vy1 * vy1) in
  let b := if Rltb speed currentSpeed
           then with_velocity b (vx1 / currentSpeed * speed) (vy1 / currentSpeed * speed)
           else with_velocity b vx1 vy1 in
  if negb (Reqb dirX 0) || negb (Reqb dirY 0) then set_facing b (atan2 dirY dirX) else b.

Definition updateStamina (p : Player) (b : Body) (dt : R) : Player * Body :=
  if isSprinting b then
    let st := stamina p - CONFIG.STAMINA_SPRINT_DRAIN * dt in
    if Rltb st 0 then (set_stamina p 0, set_sprinting b false)
    else (set_stamina p st, b)
  else
    let st := stamina p + CONFIG.STAMINA_REGEN * dt in
    if Rltb CONFIG.STAMINA_MAX st then (set_stamina p CONFIG.STAMINA_MAX, b)
    else (set_stamina p st, b).

Definition updateState (p : Player) (b : Body) : Body :=
  let speed := sqrt (vx b * vx b + vy b * vy b) in
  if shotCharging p then set_anim b Shoot
  else if Rltb 0.5 speed then set_anim b (if hasBall p then Dribble else Run)
  else set_anim b Idle.

Definition update (p : Player) (b : Body) (dt : R) : Player * Body :=
  let b := set_stateTime b (stateTime b + dt) in
  let p := set_timers p (Rmax 0 (stealCooldown p - dt))
                        (Rmax 0 (stepBackCooldown p - dt))
                        (Rmax 0 (invulnerableTime p - dt)) in
  let b := with_velocity b (vx b * (1 - CONFIG.FRICTION * dt))
                           (vy b * (1 - CONFIG.FRICTION * dt)) in
  let p := with_pos p (x p + vx b * dt) (y p + vy b * dt) in
  let '(p, b) := updateStamina p b dt in
  (p, updateState p b).

(** [performStepBack]; the boolean is its return value. *)
Definition performStepBack (p : Player) (b : Body) : Player * bool :=
  if Rltb 0 (stepBackCooldown p) then (p, false)
  else
    let backAngle := facing b + PI in
    let stepDistance := 1.5 in
    let p := with_pos p (x p + cos backAngle * stepDistance)
                        (y p + sin backAngle * stepDistance) in
    let p := set_timers p (stealCooldown p) CONFIG.STEPBACK_COOLDOWN
                          CONFIG.STEPBACK_INVULN_TIME in
    (p, true).

End PlayerMotion.

(** [n] frames of [Player.update] with the same [dt]. *)
Fixpoint update_n (n : nat) (p : Player.Player) (b : PlayerMotion.Body) (dt : R)
  : Player.Player * PlayerMotion.Body :=
  match n with
  | O => (p, b)
  | S n' => let '(p', b') := PlayerMotion.update p b dt in update_n n' p' b' dt
  end.

(** ** game/Rules.js: the methods not used by the scene code above *)
Module RulesMethods.
Import Rules.

(** [this.stats.fouls++] *)
Definition add_foul (r : Rules) : Rules :=
  {| settings := settings r; playerScore := playerScore r; aiScore := aiScore r;
     possession := possession r; needsCheckBall := needsCheckBall r;
     shotClock := shotClock r; shotClockActive := shotClockActive r;
     gameState := gameState r; playerShots := playerShots r;
     playerMakes := playerMakes r; aiShots := aiShots r; aiMakes := aiMakes r;
     fouls := (fouls r + 1)%Z |}.

(** [this.playerScore += pts] or [this.aiScore += pts] (no stats). *)
Definition add_points (r : Rules) (t : team) (pts : Z) : Rules :=
  {| settings := settings r;
     playerScore := match t with TPlayer => (playerScore r + pts)%Z | TAi => playerScore r end;
     aiScore := match t with TAi => (aiScore r + pts)%Z | TPlayer => aiScore r end;
     possession := possession r; needsCheckBall := needsCheckBall r;
     shotClock := shotClock r; shotClockActive := shotClockActive r;
     gameState := gameState r; playerShots := playerShots r;
     playerMakes := playerMakes r; aiShots := aiShots r; aiMakes := aiMakes r;
     fouls := fouls r |}.

(** [handleFoul]; the boolean is its return value. *)
Definition handleFoul (r : Rules) (foulOn : team) : Rules * bool :=
  let r := add_foul r in
  let r := set_gameState r FreeThrow in
  let r := changePossession r foulOn in
  (r, true).

Definition processFreeThrow (r : Rules) (made : bool) : Rules :=
  let r := if made then add_points r (possession r) CONFIG.FOUL_FREE_THROW_POINTS else r in
  let r := set_gameState r CheckBall in
  let r := set_needsCheckBall r true in
  if Z.geb (playerScore r) CONFIG.WIN_SCORE || Z.geb (aiScore r) CONFIG.WIN_SCORE
  then set_gameState r GameOver else r.

Definition getWinner (r : Rules) : option team :=
  match gameState r with
  | GameOver =>
      if Z.geb (playerScore r) CONFIG.WIN_SCORE then Some TPlayer
      else if Z.geb (aiScore r) CONFIG.WIN_SCORE then Some TAi
      else None
  | _ => None
  end.

Definition getPlayerAccuracy (r : Rules) : R :=
  if Z.eqb (playerShots r) 0 then 0 else IZR (playerMakes r) / IZR (playerShots r).

Definition getAIAccuracy (r : Rules) : R :=
  if Z.eqb (aiShots r) 0 then 0 else IZR (aiMakes r) / IZR (aiShots r).

Definition reset (r : Rules) : Rules :=
  let r := {| settings := settings r; playerScore := 0; aiScore := 0;
              possession := TPlayer; needsCheckBall := true;
              shotClock := shotClock r; shotClockActive := shotClockActive r;
              gameState := CheckBall; playerShots := playerShots r;
              playerMakes := playerMakes r; aiShots := aiShots r;
              aiMakes := aiMakes r; fouls := fouls r |} in
  let r := resetShotClock r in
  let r := set_shotClockActive r false in
  {| settings := settings r; playerScore := playerScore r; aiScore := aiScore r;
     possession := possession r; needsCheckBall := needsCheckBall r;
     shotClock := shotClock r; shotClockActive := shotClockActive r;
     gameState := gameState r; playerShots := 0; playerMakes := 0;
     aiShots := 0; aiMakes := 0; fouls := 0 |}.

End RulesMethods.

(** ** scenes/GameScene.js: the player-collision and clamping steps of
    [handleLiveBall] *)
Definition collidePlayers (s : GameScene.Scene) : GameScene.Scene :=
  if checkPlayerCollision (GameScene.player s) (GameScene.ai s) then
    let '(p, a) := resolvePlayerCollision (GameScene.player s) (GameScene.ai s) in
    GameScene.with_ai (GameScene.with_player s p) a
  else s.

Definition clampPlayers (s : GameScene.Scene) : GameScene.Scene :=
  let s := GameScene.with_player s (clampToCourtBounds (GameScene.player s)) in
  GameScene.with_ai s (clampToCourtBounds (GameScene.ai s)).

(** ** ai/AIController.js: [calculateShootChance] *)
Definition calculateShootChance (distToRim distToOpponent : R) : R :=
  let chance := 0.3 in
  let chance := if Rltb distToRim 4.0 then chance + 0.3
                else if Rltb distToRim 6.0 then chance + 0.2
                else chance in
  let chance := if Rltb 2.5 distToOpponent then chance + 0.2 else chance in
  Rmin chance 0.8.

(** ** core/Math.js: the seeded generator [Random] and [globalRandom].

    The generator's state is a JavaScript number holding an integer (the
    seed is [Date.now()] or an integer given by the caller), so it is a [Z].
    The bit operators act on its [ToInt32] image: [<<] and [^] yield a
    signed 32-bit integer, [>>] is the arithmetic shift, and [x >>> 0] is
    [ToUint32]. *)

(** [Math.floor]: the greatest integer not above [r]. *)
Definition Math_floor (r : R) : Z := (up r - 1)%Z.

(** [array[i]] on an array read as a list: [undefined] ([None]) outside. *)
Definition js_index {A : Type} (array : list A) (i : Z) : option A :=
  if (i <? 0)%Z then None else nth_error array (Z.to_nat i).

Module Random.

Definition toInt32 (v : Z) : Z :=
  let m := (v mod 2 ^ 32)%Z in
  if (2 ^ 31 <=? m)%Z then (m - 2 ^ 32)%Z else m.

Definition toUint32 (v : Z) : Z := (v mod 2 ^ 32)%Z.

(** [a << n], [a >> n] and [a ^ b] *)
Definition shl (a n : Z) : Z := toInt32 (Z.shiftl (toInt32 a) n).
Definition sar (a n : Z) : Z := Z.shiftr (toInt32 a) n.
Definition xor (a b : Z) : Z := Z.lxor (toInt32 a) (toInt32 b).

Record Random := mkRandom { seed : Z; state : Z }.

Definition new (seed : Z) : Random := {| seed := seed; state := seed |}.

(** [next]: the updated generator and the returned number. *)
Definition next (r : Random) : Random * R :=
  let x := state r in
  let x := xor x (shl x 13) in
  let x := xor x (sar x 17) in
  let x := xor x (shl x 5) in
  ({| seed := seed r; state := x |}, IZR (toUint32 x) / IZR 4294967295).

(** [int(min, max)] for integer bounds. *)
Definition int (r : Random) (min max : Z) : Random * Z :=
  let '(r, v) := next r in
  (r, (Math_floor (v * IZR (max - min + 1)) + min)%Z).

Definition choice {A : Type} (r : Random) (array : list A) : Random * option A :=
  let '(r, i) := int r 0 (Z.of_nat (length array) - 1) in
  (r, js_index array i).

End Random.

(** [globalRandom.choice]; [random] is the value of [Math.random()]. *)
Definition globalRandom_choice {A : Type} (random : R) (array : list A) : option A :=
  js_index array (Math_floor (random * INR (length array))).

(** * Proofs *)

(** ** Reasoning about the boolean comparisons *)
Lemma Rltb_true a b : Rltb a b = true <-> a < b.
Proof. unfold Rltb; destruct (Rlt_dec a b); split; intros; auto; lra || discriminate. Qed.

Lemma Rltb_false a b : Rltb a b = false <-> b <= a.
Proof. unfold Rltb; destruct (Rlt_dec a b); split; intros; auto; lra || discriminate. Qed.

Lemma Rleb_true a b : Rleb a b = true <-> a <= b.
Proof. unfold Rleb; destruct (Rle_dec a b); split; intros; auto; lra || discriminate. Qed.

Lemma Rleb_false a b : Rleb a b = false <-> b < a.
Proof. unfold Rleb; destruct (Rle_dec a b); split; intros; auto; lra || discriminate. Qed.

(** Case analysis on every conditional of a goal. *)
Ltac split_ifs :=
  repeat match goal with
  | |- context [if ?c then _ else _] =>
      lazymatch c with
      | context [if _ then _ else _] => fail
      | _ => destruct c eqn:?
      end
  | |- context [match ?t with _ => _ end] =>
      lazymatch type of t with
      | team => destruct t eqn:?
      | option _ => destruct t eqn:?
      | ball_state => destruct t eqn:?
      | game_state => destruct t eqn:?
      | prod _ _ => destruct t eqn:?
      end
  end.

Module OrchestratorFacts.
Import GameScene Orchestrator.

Lemma setup_one_holder s : one_holder (setupInitialPositions s).
Proof. unfold one_holder, setupInitialPositions; simpl; split_ifs; simpl; auto. Qed.

Lemma pickup_one_holder s : one_holder (handleBallPickup s) \/ handleBallPickup s = s.
Proof. unfold one_holder, handleBallPickup, pickup_by; simpl; split_ifs; simpl; auto. Qed.

Lemma attemptSteal_flags self t u p ok :
  Player.attemptSteal self t u = (p, ok) -> same_flags p self.
Proof.
  unfold Player.attemptSteal, same_flags; split_ifs; intro H; inversion H; subst; simpl; auto.
Qed.

Lemma steal_one_holder s u : one_holder s -> one_holder (player_steal s u).
Proof.
  unfold one_holder, player_steal; intro H.
  destruct (Player.attemptSteal (player s) (ai s) u) as [p ok] eqn:E.
  apply attemptSteal_flags in E; destruct E as [E _].
  destruct ok; simpl; auto. rewrite E; exact H.
Qed.

Lemma shot_input_ai s d dt : ai (player_shot_input s d dt) = ai s.
Proof.
  unfold player_shot_input; split_ifs; simpl; auto;
    destruct (Player.executeShot _) as [p [sh|]]; reflexivity.
Qed.

Lemma shot_input_one_holder s d dt : one_holder s -> one_holder (player_shot_input s d dt).
Proof.
  unfold one_holder; intros [H|H].
  - left; unfold player_shot_input; rewrite H; exact H.
  - right; rewrite shot_input_ai; exact H.
Qed.

Lemma ai_shoot_player s acc : player (ai_executeShoot acc s) = player s.
Proof.
  unfold ai_executeShoot; split_ifs; simpl; auto;
    destruct (Player.executeShot _) as [p [sh|]]; reflexivity.
Qed.

Lemma ai_layup_player s : player (ai_executeLayup s) = player s.
Proof.
  unfold ai_executeLayup; split_ifs; simpl; auto;
    destruct (Player.executeShot _) as [p [sh|]]; reflexivity.
Qed.

Lemma ai_shoot_one_holder s acc : one_holder s -> one_holder (ai_executeShoot acc s).
Proof.
  unfold one_holder; intros [H|H].
  - left; rewrite ai_shoot_player; exact H.
  - right; unfold ai_executeShoot; rewrite H; exact H.
Qed.

Lemma ai_layup_one_holder s : one_holder s -> one_holder (ai_executeLayup s).
Proof.
  unfold one_holder; intros [H|H].
  - left; rewrite ai_layup_player; exact H.
  - right; unfold ai_executeLayup; rewrite H; exact H.
Qed.

Lemma one_holder_timer s t : one_holder (with_timer s t) <-> one_holder s.
Proof. reflexivity. Qed.

Lemma oob_one_holder s dt : one_holder s -> one_holder (fst (handleOutOfBounds s dt)).
Proof.
  intro H; unfold handleOutOfBounds.
  destruct (Ball.isOutOfBounds (ball s)), (outOfBoundsTimer s); simpl; auto.
  destruct (Rleb (r - dt) 0); simpl; auto.
  apply one_holder_timer, setup_one_holder.
Qed.

Lemma score_one_holder s : one_holder s -> one_holder (fst (handleScore s)).
Proof.
  intro H; unfold handleScore.
  destruct (Ball.isScore (ball s)); simpl; auto using setup_one_holder.
Qed.

Lemma reset_one_holder s : one_holder (handleResetKey s).
Proof. unfold one_holder, handleResetKey; simpl; split_ifs; simpl; auto. Qed.

Lemma tick_one_holder s dt : one_holder s -> one_holder (tickRules s dt).
Proof.
  intro H; unfold tickRules.
  destruct (Rules.gameState (rules s)); simpl; auto;
    destruct (Rules.gameState (Rules.update (rules s) dt)); simpl; auto using setup_one_holder.
Qed.

Lemma step_one_holder s s' : step s s' -> one_holder s -> one_holder s'.
Proof.
  intros Hs H; destruct Hs.
  - apply tick_one_holder; auto.
  - exact H.
  - apply setup_one_holder.
  - destruct (pickup_one_holder s) as [H'|H']; [exact H'|rewrite H'; exact H].
  - apply steal_one_holder; auto.
  - apply shot_input_one_holder; auto.
  - apply ai_shoot_one_holder; auto.
  - apply ai_layup_one_holder; auto.
  - apply oob_one_holder; auto.
  - apply score_one_holder; auto.
  - apply reset_one_holder.
  - exact H.
  - destruct H0 as [E0 _], H1 as [E1 _]; unfold one_holder in *; simpl.
    rewrite E0, E1; exact H.
Qed.

Lemma steps_one_holder s s' : steps s s' -> one_holder s -> one_holder s'.
Proof. induction 1; eauto using step_one_holder. Qed.

End OrchestratorFacts.

(** ** Evaluation helpers for concrete inputs *)
Lemma sqrt_sq_eq (a b : R) : 0 <= b -> a = b * b -> sqrt a = b.
Proof. intros Hb ->; apply sqrt_square; exact Hb. Qed.

(** Decide the comparisons of a goal whose operands [lra] can settle. *)
Ltac rdecide :=
  repeat match goal with
  | |- context [Rltb ?a ?b] =>
      first [ rewrite (proj2 (Rltb_true a b)) by (unfold CONFIG.PLAYER_RADIUS, CONFIG.STEAL_COOLDOWN in *; lra)
            | rewrite (proj2 (Rltb_false a b)) by (unfold CONFIG.PLAYER_RADIUS in *; lra) ]
  | |- context [Rleb ?a ?b] =>
      first [ rewrite (proj2 (Rleb_true a b)) by lra
            | rewrite (proj2 (Rleb_false a b)) by lra ]
  end.

Definition settings24 : GameSettings := mkSettings (Fin 24) "street".

(** * Claims *)

(** C1: at every reachable state of the orchestrator at most one of the two
    players has [hasBall = true]: pickup, steal, check-ball setup, score and
    out-of-bounds resets each give the ball to one side and clear the other,
    shots only clear the shooter's flag. *)
Theorem C1_at_most_one_holder (s : GameScene.Scene) :
  Orchestrator.reachable s ->
  ~ (Player.hasBall (GameScene.player s) = true /\ Player.hasBall (GameScene.ai s) = true).
Proof.
  intros [settings Hs] [Hp Ha].
  assert (H : Orchestrator.one_holder s).
  { apply (OrchestratorFacts.steps_one_holder _ _ Hs).
    apply OrchestratorFacts.setup_one_holder. }
  destruct H as [H|H]; congruence.
Qed.

Lemma C1_witness :
  Orchestrator.reachable (GameScene.enter settings24) /\
  ~ (Player.hasBall (GameScene.player (GameScene.enter settings24)) = true /\
     Player.hasBall (GameScene.ai (GameScene.enter settings24)) = true).
Proof.
  split.
  - exists settings24; apply Orchestrator.steps_refl.
  - apply C1_at_most_one_holder. exists settings24; apply Orchestrator.steps_refl.
Defined.

(** A live-ball scene whose ball, last held by the human player, has been
    out of bounds long enough that the recovery timer expires this tick. *)
Definition scene_oob : GameScene.Scene :=
  {| GameScene.player := Player.new 7.5 10;
     GameScene.ai := Player.new 7.5 5;
     GameScene.ball := Ball.with_flags (Ball.with_kin Ball.new 16 5 0.12 0 0 0)
                         Free (Some TPlayer) false true false;
     GameScene.rules := Rules.startLiveBall (Rules.new settings24);
     GameScene.outOfBoundsTimer := Some 0.01 |}.

(** C2 (failing input): when the out-of-bounds recovery timer expires,
    [handleLiveBall] flips possession once (to the AI, the side that did not
    last hold the ball), clears the timer and returns, but the game state
    stays [liveBall] with the shot clock armed: nothing sets [checkBall]. *)
Theorem C2_oob_expiry_keeps_liveBall :
  let '(s', returned) := GameScene.handleOutOfBounds scene_oob (1 / 60) in
  returned = true /\
  Rules.possession (GameScene.rules s') = TAi /\
  GameScene.outOfBoundsTimer s' = None /\
  Rules.gameState (GameScene.rules s') = LiveBall /\
  Rules.shotClockActive (GameScene.rules s') = true.
Proof.
  unfold GameScene.handleOutOfBounds; simpl.
  rdecide; simpl. repeat split; reflexivity.
Qed.

(** A live ball with one second left on a 24-second shot clock. *)
Definition rules_live_1s : Rules.Rules :=
  Rules.set_shotClock (Rules.startLiveBall (Rules.new settings24)) (Fin 1).

(** C3 (counterexample): [update] does not always leave [shotClock - dt]:
    when that reaches zero the violation handler resets it to the configured
    duration, so with one second left and [dt = 2] the clock reads 24. *)
Lemma C3_update_not_plain_decrement :
  Rules.shotClock (Rules.update rules_live_1s 2) <> clock_sub (Rules.shotClock rules_live_1s) 2.
Proof.
  unfold Rules.update; simpl. rdecide. simpl.
  intro H; injection H; lra.
Qed.

(** C3 (amended): when [shotClockActive] and the state is [liveBall],
    [update dt] sets the clock to [shotClock - dt], unless that is [<= 0],
    in which case the violation resets it to [shotClockDuration] (an
    [Infinity] clock stays [Infinity] and never expires); otherwise the clock
    is unchanged.  [changePossession] always sets it to [shotClockDuration]. *)
Theorem C3_shot_clock_update (r : Rules.Rules) (dt : R) (t : team) :
  Rules.shotClock (Rules.update r dt) =
    (if Rules.shotClockActive r && Rules.is_liveBall (Rules.gameState r) then
       if clock_le0 (clock_sub (Rules.shotClock r) dt)
       then shotClockDuration (Rules.settings r)
       else clock_sub (Rules.shotClock r) dt
     else Rules.shotClock r) /\
  (Rules.shotClock r = Infinity -> Rules.shotClock (Rules.update r dt) = Infinity) /\
  Rules.shotClock (Rules.changePossession r t) = shotClockDuration (Rules.settings r).
Proof.
  split; [|split].
  - unfold Rules.update.
    destruct (Rules.shotClockActive r && Rules.is_liveBall (Rules.gameState r)); [|reflexivity].
    simpl. destruct (clock_le0 (clock_sub (Rules.shotClock r) dt)); reflexivity.
  - intro H; unfold Rules.update.
    destruct (Rules.shotClockActive r && Rules.is_liveBall (Rules.gameState r)); simpl;
      rewrite H; reflexivity.
  - reflexivity.
Qed.

Lemma C3_witness :
  Rules.shotClock (Rules.new (mkSettings Infinity "street")) = Infinity /\
  Rules.shotClock (Rules.update (Rules.startLiveBall (Rules.new (mkSettings Infinity "street"))) 5) = Infinity.
Proof.
  split; [reflexivity|].
  apply (proj1 (proj2 (C3_shot_clock_update
    (Rules.startLiveBall (Rules.new (mkSettings Infinity "street"))) 5 TAi))).
  reflexivity.
Defined.

(** C4: [scorePoints team x y] adds the preset's [THREE_POINT] value when
    the shot was taken at distance [>= THREE_POINT_RADIUS] from the rim and
    its [INSIDE] value otherwise to the scorer's score, counts a make for
    the scorer, gives possession to the scorer, disarms the shot clock and
    ends in [checkBall], or in [gameOver] once either score reaches
    [WIN_SCORE]. *)
Theorem C4_scorePoints (r : Rules.Rules) (t : team) (x y : R) :
  let r' := Rules.scorePoints r t x y in
  let preset := getScoringSystem (Rules.settings r) in
  let points :=
    if Rleb CONFIG.THREE_POINT_RADIUS
         (distance x y (CONFIG.COURT_WIDTH / 2) CONFIG.BACKBOARD_DISTANCE)
    then CONFIG.THREE_POINT preset else CONFIG.INSIDE preset in
  match t with
  | TPlayer =>
      Rules.playerScore r' = (Rules.playerScore r + points)%Z /\
      Rules.playerMakes r' = (Rules.playerMakes r + 1)%Z /\
      Rules.aiScore r' = Rules.aiScore r /\ Rules.aiMakes r' = Rules.aiMakes r
  | TAi =>
      Rules.aiScore r' = (Rules.aiScore r + points)%Z /\
      Rules.aiMakes r' = (Rules.aiMakes r + 1)%Z /\
      Rules.playerScore r' = Rules.playerScore r /\ Rules.playerMakes r' = Rules.playerMakes r
  end /\
  Rules.possession r' = t /\
  Rules.shotClockActive r' = false /\
  Rules.gameState r' =
    (if Z.geb (Rules.playerScore r') CONFIG.WIN_SCORE || Z.geb (Rules.aiScore r') CONFIG.WIN_SCORE
     then GameOver else CheckBall).
Proof.
  unfold Rules.scorePoints, isThreePoint; simpl.
  destruct t; simpl;
    destruct (Rleb CONFIG.THREE_POINT_RADIUS
                (distance x y (CONFIG.COURT_WIDTH / 2) CONFIG.BACKBOARD_DISTANCE));
    split_ifs; simpl in *; repeat split; try reflexivity;
    repeat match goal with
    | H : (_ || _) = false |- _ => apply Bool.orb_false_iff in H; destruct H
    | H : (_ || _) = true |- _ => apply Bool.orb_true_iff in H; destruct H
    end; congruence.
Qed.

Module BallFacts.
Import Ball.

Lemma checkRimCollision_true bx by' bz rx ry rz :
  checkRimCollision bx by' bz rx ry rz = true <->
  Rabs (bz - rz) <= CONFIG.BALL_RADIUS * 2 /\
  distance bx by' rx ry <= CONFIG.RIM_RADIUS + CONFIG.MAGNETIC_WINDOW.
Proof.
  unfold checkRimCollision.
  destruct (Rlt_dec (CONFIG.BALL_RADIUS * 2) (Rabs (bz - rz))).
  - split; [discriminate | intros [H _]; lra].
  - rewrite Rleb_true; split; [intro; split; lra | tauto].
Qed.

Lemma integrate_hasScored b dt : hasScored (integrate b dt) = hasScored b.
Proof. reflexivity. Qed.

Lemma ground_hasScored b : hasScored (ground b) = hasScored b.
Proof. unfold ground; split_ifs; reflexivity. Qed.

Lemma backboard_hasScored b : hasScored (backboard b) = hasScored b.
Proof. unfold backboard; split_ifs; reflexivity. Qed.

Lemma checkBounds_hasScored b : hasScored (checkBounds b) = hasScored b.
Proof. unfold checkBounds; split_ifs; reflexivity. Qed.

Lemma rim_hasScored b :
  hasScored (rim b) =
  hasScored b ||
  (is_inFlight b && Rltb (vz b) 0 && negb (hasScored b) &&
   checkRimCollision (x b) (y b) (z b) (rimX b) (rimY b) (rimZ b)).
Proof.
  unfold rim.
  destruct (is_inFlight b), (Rltb (vz b) 0), (hasScored b) eqn:E; simpl; rewrite ?E; try reflexivity.
  destruct (checkRimCollision (x b) (y b) (z b) (rimX b) (rimY b) (rimZ b)); simpl; rewrite ?E; reflexivity.
Qed.

(** The physics branch of [update] scores when the rim test passes. *)
Lemma update_scores b dt :
  state b <> Held ->
  let b0 := ground (integrate b dt) in
  is_inFlight b0 = true -> Rltb (vz b0) 0 = true -> hasScored b0 = false ->
  checkRimCollision (x b0) (y b0) (z b0) (rimX b0) (rimY b0) (rimZ b0) = true ->
  hasScored (update b dt) = true.
Proof.
  intros Hs b0 H1 H2 H3 H4.
  assert (E : update b dt = checkBounds (backboard (rim b0)))
    by (unfold update; destruct (state b); [reflexivity|contradiction|reflexivity]).
  rewrite E, checkBounds_hasScored, backboard_hasScored, rim_hasScored, H1, H2, H3, H4.
  reflexivity.
Qed.

End BallFacts.

(** C5: [isScore] is [hasScored && z < rimZ].  Once set, [hasScored] stays
    set through [update] (it is cleared only by [release], [attachTo] and
    resets), so it is set at most once per flight; and [update] sets it only
    through the rim test on the ball after gravity and the ground bounce:
    the ball is [inFlight], descending, within [RIM_RADIUS + MAGNETIC_WINDOW]
    of the rim center in 2D and within [2 * BALL_RADIUS] of rim height.  The
    contact only multiplies [vz] by 0.7: the ball keeps its position and
    state and is still falling. *)
Theorem C5_rim_scoring (b : Ball.Ball) (dt vx vy vz : R) :
  Ball.isScore b = (Ball.hasScored b && Rltb (Ball.z b) (Ball.rimZ b)) /\
  Ball.hasScored (Ball.release b vx vy vz) = false /\
  (Ball.hasScored b = true -> Ball.hasScored (Ball.update b dt) = true) /\
  (Ball.hasScored b = false -> Ball.hasScored (Ball.update b dt) = true ->
   let b0 := Ball.ground (Ball.integrate b dt) in
   Ball.update b dt = Ball.checkBounds (Ball.backboard (Ball.rim b0)) /\
   Ball.state b0 = InFlight /\ Ball.vz b0 < 0 /\
   distance (Ball.x b0) (Ball.y b0) (Ball.rimX b0) (Ball.rimY b0)
     <= CONFIG.RIM_RADIUS + CONFIG.MAGNETIC_WINDOW /\
   Rabs (Ball.z b0 - Ball.rimZ b0) <= CONFIG.BALL_RADIUS * 2 /\
   Ball.hasScored (Ball.rim b0) = true /\
   Ball.vz (Ball.rim b0) = Ball.vz b0 * 0.7 /\ Ball.vz (Ball.rim b0) < 0 /\
   Ball.x (Ball.rim b0) = Ball.x b0 /\ Ball.y (Ball.rim b0) = Ball.y b0 /\
   Ball.z (Ball.rim b0) = Ball.z b0 /\ Ball.state (Ball.rim b0) = Ball.state b0).
Proof.
  split; [reflexivity|]. split; [reflexivity|]. split.
  - intro H. unfold Ball.update. destruct (Ball.state b).
    + rewrite BallFacts.checkBounds_hasScored, BallFacts.backboard_hasScored,
        BallFacts.rim_hasScored, BallFacts.ground_hasScored, BallFacts.integrate_hasScored, H.
      reflexivity.
    + exact H.
    + rewrite BallFacts.checkBounds_hasScored, BallFacts.backboard_hasScored,
        BallFacts.rim_hasScored, BallFacts.ground_hasScored, BallFacts.integrate_hasScored, H.
      reflexivity.
  - intros H0 H1 b0.
    destruct (Ball.state b) eqn:Hst.
    2: { unfold Ball.update in H1; rewrite Hst in H1; simpl in H1; congruence. }
    all: assert (E : Ball.update b dt = Ball.checkBounds (Ball.backboard (Ball.rim b0)))
           by (unfold Ball.update; rewrite Hst; reflexivity);
         rewrite E, BallFacts.checkBounds_hasScored, BallFacts.backboard_hasScored in H1;
         assert (Hb0 : Ball.hasScored b0 = false)
           by (unfold b0; rewrite BallFacts.ground_hasScored; exact H0);
         rewrite BallFacts.rim_hasScored, Hb0 in H1; simpl in H1;
         destruct (Ball.is_inFlight b0) eqn:Hf; [|discriminate];
         destruct (Rltb (Ball.vz b0) 0) eqn:Hv; [|discriminate];
         simpl in H1;
         apply Rltb_true in Hv; apply BallFacts.checkRimCollision_true in H1 as Hc;
         destruct Hc as [Hz Hd];
         split; [exact E|];
         assert (Hs0 : Ball.state b0 = InFlight)
           by (unfold Ball.is_inFlight in Hf; destruct (Ball.state b0); congruence);
         unfold Ball.rim; rewrite Hf, Hb0; rewrite (proj2 (Rltb_true _ _) Hv), H1; simpl;
         repeat split; try assumption; try reflexivity; lra.
Qed.

(** A ball falling through the rim center, just above rim height. *)
Definition ball_at_rim : Ball.Ball :=
  Ball.with_flags (Ball.with_kin Ball.new 7.5 1.2 3.1 0 0 (-1))
    InFlight (Some TPlayer) false false true.

Lemma ball_at_rim_no_bounce :
  Ball.ground (Ball.integrate ball_at_rim 0.01) = Ball.integrate ball_at_rim 0.01.
Proof.
  unfold Ball.ground; simpl. unfold CONFIG.BALL_RADIUS, CONFIG.GRAVITY. rdecide. reflexivity.
Qed.

Lemma ball_at_rim_scores : Ball.hasScored (Ball.update ball_at_rim 0.01) = true.
Proof.
  apply BallFacts.update_scores; [discriminate| | | |]; rewrite ball_at_rim_no_bounce;
    simpl; unfold CONFIG.GRAVITY, CONFIG.COURT_WIDTH, CONFIG.BACKBOARD_DISTANCE,
             CONFIG.RIM_HEIGHT; try reflexivity.
  - rdecide; reflexivity.
  - apply BallFacts.checkRimCollision_true; split.
    + unfold CONFIG.BALL_RADIUS; apply Rabs_le; lra.
    + unfold distance, CONFIG.RIM_RADIUS, CONFIG.MAGNETIC_WINDOW.
      rewrite (sqrt_sq_eq _ 0) by lra. lra.
Qed.

Lemma C5_witness :
  Ball.hasScored ball_at_rim = false /\
  Ball.hasScored (Ball.update ball_at_rim 0.01) = true /\
  Ball.state (Ball.ground (Ball.integrate ball_at_rim 0.01)) = InFlight.
Proof.
  split; [reflexivity|]. split; [exact ball_at_rim_scores|].
  exact (proj1 (proj2 (proj2 (proj2 (proj2
           (C5_rim_scoring ball_at_rim 0.01 0 0 0))) eq_refl ball_at_rim_scores))).
Defined.

Lemma horizontal_speed_norm (a hs : R) :
  0 <= hs -> sqrt ((cos a * hs) * (cos a * hs) + (sin a * hs) * (sin a * hs)) = hs.
Proof.
  intro H; apply sqrt_sq_eq; [exact H|].
  pose proof (sin2_cos2 a) as E; unfold Rsqr in E.
  transitivity (hs * hs * (sin a * sin a + cos a * cos a)); [ring|]. rewrite E; ring.
Qed.

(** C6: [executeShot] returns [null] and leaves the player as it was unless
    it is both charging and holding the ball.  Otherwise it returns a launch
    vector whose horizontal speed is [shotPower * (SHOT_BASE_SPEED +
    distToRim * SHOT_DISTANCE_FACTOR) * accuracy], the accuracy factor being
    below 1 exactly when stamina is below [LOW_STAMINA_THRESHOLD]; the
    player comes back with [hasBall] and [shotCharging] cleared and every
    other field unchanged.  [executeShot] has no access to the ball: the
    caller releases it. *)
Theorem C6_executeShot (p : Player.Player) :
  ((Player.shotCharging p && Player.hasBall p) = false -> Player.executeShot p = (p, None)) /\
  (Player.shotCharging p = true -> Player.hasBall p = true -> 0 <= Player.shotPower p ->
   let distToRim := distance (Player.x p) (Player.y p) (Player.rimX p) (Player.rimY p) in
   let accuracy := if Rltb (Player.stamina p) CONFIG.LOW_STAMINA_THRESHOLD
                   then CONFIG.LOW_STAMINA_ACCURACY_PENALTY else 1.0 in
   let horizontalSpeed :=
     Player.shotPower p * (CONFIG.SHOT_BASE_SPEED + distToRim * CONFIG.SHOT_DISTANCE_FACTOR)
     * accuracy in
   (accuracy < 1.0 <-> Player.stamina p < CONFIG.LOW_STAMINA_THRESHOLD) /\
   exists d,
     Player.executeShot p =
       (Player.with_shot p false (Player.shotPower p) false (Player.shotAngle p), Some d) /\
     sqrt (Player.svx d * Player.svx d + Player.svy d * Player.svy d) = horizontalSpeed /\
     Player.power d = Player.shotPower p).
Proof.
  split.
  - intro H; unfold Player.executeShot.
    destruct (Player.shotCharging p), (Player.hasBall p); try discriminate; reflexivity.
  - intros Hc Hb Hp distToRim accuracy horizontalSpeed. split.
    + unfold accuracy, CONFIG.LOW_STAMINA_ACCURACY_PENALTY.
      destruct (Rltb (Player.stamina p) CONFIG.LOW_STAMINA_THRESHOLD) eqn:E.
      * apply Rltb_true in E; split; intro; lra.
      * apply Rltb_false in E; split; intro; lra.
    + unfold Player.executeShot; rewrite Hc, Hb; simpl.
      eexists; split; [reflexivity|]; simpl; split; [|reflexivity].
      apply horizontal_speed_norm.
      assert (0 <= distToRim) by apply sqrt_pos.
      assert (0 < accuracy)
        by (unfold accuracy, CONFIG.LOW_STAMINA_ACCURACY_PENALTY;
            destruct (Rltb _ _); lra).
      unfold calculateOptimalShotPower, CONFIG.SHOT_BASE_SPEED, CONFIG.SHOT_DISTANCE_FACTOR in *.
      apply Rmult_le_pos; [apply Rmult_le_pos; lra | lra].
Qed.

(** A player with the ball who has charged a half-power shot. *)
Definition charging_shooter : Player.Player :=
  Player.with_shot (Player.new 7.5 6.2) true 0.5 true 0.

Lemma C6_witness :
  Player.shotCharging charging_shooter = true /\ Player.hasBall charging_shooter = true /\
  exists d, Player.executeShot charging_shooter =
    (Player.with_shot charging_shooter false 0.5 false 0, Some d).
Proof.
  split; [reflexivity|]. split; [reflexivity|].
  destruct (proj2 (proj2 (C6_executeShot charging_shooter) eq_refl eq_refl
                     ltac:(simpl; lra))) as [d [E _]].
  exists d; exact E.
Defined.

(** C7: [attemptSteal target] is rejected (returns [false], cooldown
    untouched) exactly when the attacker's steal cooldown is running, the
    target has no ball, the target is invulnerable, or the two are more
    than [3 * PLAYER_RADIUS] apart.  Otherwise it arms the cooldown with
    [STEAL_COOLDOWN] and succeeds when [Math.random()] falls below
    [0.3 * (1 - dist / (3 * PLAYER_RADIUS))]: for a uniform draw in [0, 1)
    this is a Bernoulli trial with that chance, which lies in [0, 0.3] and
    is 0 at the distance cutoff. *)
Theorem C7_attemptSteal (a t : Player.Player) (random : R) :
  let dist := distance (Player.x a) (Player.y a) (Player.x t) (Player.y t) in
  let rejected :=
    0 < Player.stealCooldown a \/ Player.hasBall t = false \/
    0 < Player.invulnerableTime t \/ CONFIG.PLAYER_RADIUS * 3 < dist in
  let successChance := 0.3 * (1 - dist / (CONFIG.PLAYER_RADIUS * 3)) in
  ((snd (Player.attemptSteal a t random) = false /\
    Player.stealCooldown (fst (Player.attemptSteal a t random)) = Player.stealCooldown a)
   <-> rejected) /\
  (rejected -> Player.attemptSteal a t random = (a, false)) /\
  (~ rejected ->
   Player.attemptSteal a t random =
     (Player.set_stealCooldown a CONFIG.STEAL_COOLDOWN, Rltb random successChance) /\
   0 <= successChance <= 0.3 /\
   (dist = CONFIG.PLAYER_RADIUS * 3 -> successChance = 0)).
Proof.
  intros dist rejected successChance.
  assert (Hrej : rejected -> Player.attemptSteal a t random = (a, false)).
  { unfold rejected, Player.attemptSteal; fold dist.
    intros [H|[H|[H|H]]].
    - rewrite (proj2 (Rltb_true _ _) H); reflexivity.
    - destruct (Rltb 0 (Player.stealCooldown a)); [reflexivity|].
      rewrite H; reflexivity.
    - destruct (Rltb 0 (Player.stealCooldown a)); [reflexivity|].
      destruct (Player.hasBall t); [|reflexivity]. simpl.
      rewrite (proj2 (Rltb_true _ _) H); reflexivity.
    - destruct (Rltb 0 (Player.stealCooldown a)); [reflexivity|].
      destruct (Player.hasBall t); [|reflexivity]. simpl.
      destruct (Rltb 0 (Player.invulnerableTime t)); [reflexivity|].
      rewrite (proj2 (Rltb_true _ _) H); reflexivity. }
  assert (Hacc : ~ rejected ->
    Player.attemptSteal a t random =
      (Player.set_stealCooldown a CONFIG.STEAL_COOLDOWN, Rltb random successChance)).
  { intro Hn. unfold rejected in Hn.
    assert (H1 : Player.stealCooldown a <= 0) by (apply Rnot_lt_le; tauto).
    assert (H2 : Player.hasBall t = true) by (destruct (Player.hasBall t); tauto).
    assert (H3 : Player.invulnerableTime t <= 0) by (apply Rnot_lt_le; tauto).
    assert (H4 : dist <= CONFIG.PLAYER_RADIUS * 3) by (apply Rnot_lt_le; tauto).
    unfold Player.attemptSteal; fold dist.
    rewrite (proj2 (Rltb_false _ _) H1), H2, (proj2 (Rltb_false _ _) H3),
      (proj2 (Rltb_false _ _) H4).
    reflexivity. }
  split; [|split; [exact Hrej|]].
  - split.
    + intros [Hs Hc].
      assert (Hd : rejected \/ ~ rejected).
      { unfold rejected.
        destruct (Rlt_dec 0 (Player.stealCooldown a)); [left; tauto|].
        destruct (Player.hasBall t) eqn:Ht; [|left; tauto].
        destruct (Rlt_dec 0 (Player.invulnerableTime t)); [left; tauto|].
        destruct (Rlt_dec (CONFIG.PLAYER_RADIUS * 3) dist); [left; tauto|].
        right; intros [H|[H|[H|H]]]; [lra|discriminate|lra|lra]. }
      destruct Hd as [R|R]; [exact R|].
      rewrite (Hacc R) in Hc. simpl in Hc.
      unfold rejected in R.
      assert (Player.stealCooldown a <= 0) by (apply Rnot_lt_le; tauto).
      unfold CONFIG.STEAL_COOLDOWN in Hc. lra.
    + intro R. rewrite (Hrej R). split; reflexivity.
  - intro Hn. split; [exact (Hacc Hn)|].
    assert (H4 : dist <= CONFIG.PLAYER_RADIUS * 3)
      by (apply Rnot_lt_le; unfold rejected in Hn; tauto).
    assert (H0 : 0 <= dist) by apply sqrt_pos.
    unfold successChance, CONFIG.PLAYER_RADIUS in *.
    split.
    + split.
      * lra.
      * lra.
    + intro E; rewrite E. field_simplify; lra.
Qed.

(** The AI holding the ball at (7.5, 6.2) and the human player half a
    metre away. *)
Definition ai_with_ball : Player.Player :=
  Player.set_hasBall (Player.new 7.5 6.2) true.
Definition defender : Player.Player := Player.new 7.5 6.7.

Lemma defender_distance :
  distance (Player.x defender) (Player.y defender) (Player.x ai_with_ball) (Player.y ai_with_ball) = 0.5.
Proof. unfold distance; simpl. apply sqrt_sq_eq; lra. Qed.

Lemma C7_witness :
  ~ (0 < Player.stealCooldown defender \/ Player.hasBall ai_with_ball = false \/
     0 < Player.invulnerableTime ai_with_ball \/
     CONFIG.PLAYER_RADIUS * 3 <
       distance (Player.x defender) (Player.y defender) (Player.x ai_with_ball) (Player.y ai_with_ball)) /\
  Player.attemptSteal defender ai_with_ball 0.01 =
    (Player.set_stealCooldown defender CONFIG.STEAL_COOLDOWN,
     Rltb 0.01 (0.3 * (1 - distance (Player.x defender) (Player.y defender)
                             (Player.x ai_with_ball) (Player.y ai_with_ball)
                           / (CONFIG.PLAYER_RADIUS * 3)))).
Proof.
  assert (Hn : ~ (0 < Player.stealCooldown defender \/ Player.hasBall ai_with_ball = false \/
     0 < Player.invulnerableTime ai_with_ball \/
     CONFIG.PLAYER_RADIUS * 3 <
       distance (Player.x defender) (Player.y defender) (Player.x ai_with_ball) (Player.y ai_with_ball))).
  { rewrite defender_distance; unfold CONFIG.PLAYER_RADIUS; simpl.
    intros [H|[H|[H|H]]]; [lra|discriminate|lra|lra]. }
  split; [exact Hn|].
  exact (proj1 (proj2 (proj2 (C7_attemptSteal defender ai_with_ball 0.01)) Hn)).
Defined.

(** The AI holds the ball at (7.5, 6.2), five metres from the rim, and the
    human player stands half a metre away with no steal cooldown. *)
Definition scene_ai_ball : GameScene.Scene :=
  {| GameScene.player := defender;
     GameScene.ai := ai_with_ball;
     GameScene.ball := Ball.attachTo Ball.new TAi 7.5 6.2;
     GameScene.rules := Rules.startLiveBall
                          (Rules.set_possession (Rules.new settings24) TAi);
     GameScene.outOfBoundsTimer := None |}.

(** The AI's first shooting tick: [startShot], one [chargeShot(1/60)] to the
    minimum power 0.2, below the target power for five metres, so the AI
    keeps the ball and keeps charging. *)
Lemma ai_first_shoot_tick :
  GameScene.ai (GameScene.ai_executeShoot CONFIG.STANDARD_SHOT_ACCURACY scene_ai_ball) =
  Player.with_shot ai_with_ball true 0.2 true
    (angleTo 7.5 6.2 (CONFIG.COURT_WIDTH / 2) CONFIG.BACKBOARD_DISTANCE).
Proof.
  assert (Hd : distance 7.5 6.2 (CONFIG.COURT_WIDTH / 2) CONFIG.BACKBOARD_DISTANCE = 5)
    by (unfold distance, CONFIG.COURT_WIDTH, CONFIG.BACKBOARD_DISTANCE; apply sqrt_sq_eq; lra).
  assert (Hc : clamp (0 + CONFIG.POWER_CHARGE_RATE * (1 / 60))
                 CONFIG.MIN_SHOT_POWER CONFIG.MAX_SHOT_POWER = 0.2).
  { unfold clamp, CONFIG.POWER_CHARGE_RATE, CONFIG.MIN_SHOT_POWER, CONFIG.MAX_SHOT_POWER.
    rewrite Rmax_right by lra. apply Rmin_left; lra. }
  unfold GameScene.ai_executeShoot; simpl.
  rewrite Hd, Hc.
  unfold GameScene.calculateOptimalPowerForDistance, calculateOptimalShotPower,
    CONFIG.SHOT_BASE_SPEED, CONFIG.SHOT_DISTANCE_FACTOR, CONFIG.STANDARD_SHOT_ACCURACY,
    CONFIG.MAX_SHOT_POWER.
  rewrite Rmin_left by lra.
  rdecide. simpl. unfold Player.chargeShot, Player.startShot; simpl.
  rewrite Hc. reflexivity.
Qed.

Lemma distance_sq (x1 y1 x2 y2 : R) :
  distance x1 y1 x2 y2 * distance x1 y1 x2 y2 = (x2 - x1) * (x2 - x1) + (y2 - y1) * (y2 - y1).
Proof.
  unfold distance; apply sqrt_sqrt.
  pose proof (Rle_0_sqr (x2 - x1)); pose proof (Rle_0_sqr (y2 - y1)); unfold Rsqr in *; lra.
Qed.

Lemma distance_same (x y : R) : distance x y x y = 0.
Proof. unfold distance. replace ((x - x) * (x - x) + (y - y) * (y - y)) with 0 by ring. exact sqrt_0. Qed.

(** A state one step after a reachable state is reachable. *)
Lemma reachable_step (s s' : GameScene.Scene) :
  Orchestrator.reachable s -> Orchestrator.step s s' -> Orchestrator.reachable s'.
Proof.
  intros [st H] Hs. exists st.
  induction H as [s0|s0 s1 s2 H01 _ IH].
  - eapply Orchestrator.steps_cons; [exact Hs | apply Orchestrator.steps_refl].
  - eapply Orchestrator.steps_cons; [exact H01 | exact (IH Hs)].
Qed.

(** [scene_ai_ball] is reached from the start of a game: the ball, knocked
    loose onto the AI's spot, is picked up by the AI, play goes live, and
    the players walk to their places. *)
Lemma scene_ai_ball_reachable : Orchestrator.reachable scene_ai_ball.
Proof.
  exists settings24.
  set (s0 := GameScene.enter settings24).
  set (b0 := Ball.with_kin Ball.new (Player.x (GameScene.ai s0)) (Player.y (GameScene.ai s0)) 0 0 0 0).
  set (e1 := {| GameScene.player := GameScene.player s0; GameScene.ai := GameScene.ai s0;
                GameScene.ball := b0; GameScene.rules := GameScene.rules s0;
                GameScene.outOfBoundsTimer := GameScene.outOfBoundsTimer s0 |}).
  assert (Hpick : GameScene.handleBallPickup e1 = GameScene.pickup_by e1 TAi).
  { unfold GameScene.handleBallPickup; simpl.
    replace (distance (CONFIG.COURT_WIDTH / 2) (CONFIG.FREE_THROW_DISTANCE + CONFIG.BACKBOARD_DISTANCE - 2)
               (CONFIG.COURT_WIDTH / 2) (CONFIG.FREE_THROW_DISTANCE + CONFIG.BACKBOARD_DISTANCE + 2)) with 4
      by (symmetry; unfold distance; apply sqrt_sq_eq; lra).
    unfold CONFIG.PLAYER_RADIUS; rdecide.
    rewrite distance_same; rdecide. reflexivity. }
  eapply Orchestrator.steps_cons.
  { apply (Orchestrator.step_env s0 (GameScene.player s0) (GameScene.ai s0) b0);
      split; reflexivity. }
  fold e1.
  eapply Orchestrator.steps_cons.
  { apply Orchestrator.step_pickup. reflexivity. }
  rewrite Hpick.
  eapply Orchestrator.steps_cons.
  { apply Orchestrator.step_startLive. }
  eapply Orchestrator.steps_cons.
  { apply (Orchestrator.step_env _ defender ai_with_ball (Ball.attachTo Ball.new TAi 7.5 6.2));
      split; reflexivity. }
  apply Orchestrator.steps_refl.
Qed.

(** C8 (failing input): a successful steal against a player who is
    charging a shot clears that player's [hasBall] but not its
    [shotCharging].  The AI starts a shot (charging while holding the ball,
    as the invariant wants); the human player then steals with
    [Math.random() = 0.01], and the AI is left charging without the ball.
    Both states are reachable from the start of a game, so [shotCharging]
    does not imply [hasBall] in every reachable state. *)
Theorem C8_steal_leaves_charging_without_ball :
  let s1 := GameScene.ai_executeShoot CONFIG.STANDARD_SHOT_ACCURACY scene_ai_ball in
  let s2 := GameScene.player_steal s1 0.01 in
  Orchestrator.reachable s1 /\ Orchestrator.reachable s2 /\
  Orchestrator.charging_holds (GameScene.ai s1) /\
  Player.shotCharging (GameScene.ai s1) = true /\
  ~ Orchestrator.charging_holds (GameScene.ai s2) /\
  Player.shotCharging (GameScene.ai s2) = true /\
  Player.hasBall (GameScene.ai s2) = false /\
  Player.hasBall (GameScene.player s2) = true.
Proof.
  intros s1 s2.
  assert (Hs1 : GameScene.ai s1 =
    Player.with_shot ai_with_ball true 0.2 true
      (angleTo 7.5 6.2 (CONFIG.COURT_WIDTH / 2) CONFIG.BACKBOARD_DISTANCE))
    by exact ai_first_shoot_tick.
  assert (Hp1 : GameScene.player s1 = defender)
    by (unfold s1; rewrite OrchestratorFacts.ai_shoot_player; reflexivity).
  assert (Hsteal : Player.attemptSteal (GameScene.player s1) (GameScene.ai s1) 0.01 =
                   (Player.set_stealCooldown defender CONFIG.STEAL_COOLDOWN, true)).
  { rewrite Hp1, Hs1. unfold Player.attemptSteal; simpl.
    replace (distance 7.5 6.7 7.5 6.2) with 0.5 by (symmetry; exact defender_distance).
    unfold CONFIG.PLAYER_RADIUS. rdecide. reflexivity. }
  assert (R1 : Orchestrator.reachable s1)
    by exact (reachable_step _ _ scene_ai_ball_reachable (Orchestrator.step_ai_shoot _ _)).
  assert (R2 : Orchestrator.reachable s2).
  { apply (reachable_step s1); [exact R1|]. apply Orchestrator.step_steal.
    rewrite Hp1; reflexivity. }
  split; [exact R1|]. split; [exact R2|].
  unfold s2, GameScene.player_steal. rewrite Hsteal. simpl. rewrite Hs1.
  unfold Orchestrator.charging_holds. simpl.
  split; [reflexivity|]. split; [reflexivity|].
  split; [intro H; specialize (H eq_refl); discriminate|].
  repeat split; reflexivity.
Qed.

(** Pushing two points apart along their normal, each by half the overlap
    with [m], leaves them exactly [m] apart. *)
Lemma push_apart_distance (x1 y1 x2 y2 m : R) :
  let d := distance x1 y1 x2 y2 in
  0 < d -> 0 <= m ->
  let pushX := (x2 - x1) / d * (m - d) * 0.5 in
  let pushY := (y2 - y1) / d * (m - d) * 0.5 in
  distance (x1 - pushX) (y1 - pushY) (x2 + pushX) (y2 + pushY) = m.
Proof.
  intros d Hd Hm pushX pushY.
  pose proof (distance_sq x1 y1 x2 y2) as E; fold d in E.
  unfold pushX, pushY; clear pushX pushY; clearbody d.
  unfold distance; apply sqrt_sq_eq; [exact Hm|].
  replace 0.5 with (/ 2) by lra.
  transitivity (((x2 - x1) * (x2 - x1) + (y2 - y1) * (y2 - y1)) * (m * m) / (d * d)).
  - field. lra.
  - rewrite <- E. field. lra.
Qed.

(** C9: [resolvePlayerCollision] never divides by zero: it only divides by
    the distance in the branch where that distance is positive.  Players at
    the same spot, or at least [2 * PLAYER_RADIUS] apart, are left as they
    are.  Overlapping players are each pushed by half the overlap in
    opposite directions along the unit normal joining them: afterwards they
    are exactly [2 * PLAYER_RADIUS] apart and their midpoint has not
    moved. *)
Theorem C9_resolvePlayerCollision (p1 p2 : Player.Player) :
  let d := distance (Player.x p1) (Player.y p1) (Player.x p2) (Player.y p2) in
  let minDist := CONFIG.PLAYER_RADIUS * 2 in
  let '(q1, q2) := resolvePlayerCollision p1 p2 in
  (Player.x p1 = Player.x p2 -> Player.y p1 = Player.y p2 -> q1 = p1 /\ q2 = p2) /\
  (d = 0 -> q1 = p1 /\ q2 = p2) /\
  (minDist <= d -> q1 = p1 /\ q2 = p2) /\
  (0 < d < minDist ->
   let nx := (Player.x p2 - Player.x p1) / d in
   let ny := (Player.y p2 - Player.y p1) / d in
   nx * nx + ny * ny = 1 /\
   q1 = Player.with_pos p1 (Player.x p1 - nx * (minDist - d) * 0.5)
                           (Player.y p1 - ny * (minDist - d) * 0.5) /\
   q2 = Player.with_pos p2 (Player.x p2 + nx * (minDist - d) * 0.5)
                           (Player.y p2 + ny * (minDist - d) * 0.5) /\
   distance (Player.x q1) (Player.y q1) (Player.x q2) (Player.y q2) = minDist /\
   (Player.x q1 + Player.x q2) / 2 = (Player.x p1 + Player.x p2) / 2 /\
   (Player.y q1 + Player.y q2) / 2 = (Player.y p1 + Player.y p2) / 2).
Proof.
  intros d minDist.
  assert (Hd0 : 0 <= d) by apply sqrt_pos.
  assert (Hm : minDist = 0.7) by (unfold minDist, CONFIG.PLAYER_RADIUS; lra).
  unfold resolvePlayerCollision; fold d; fold minDist.
  destruct (Rltb d minDist && Rltb 0 d) eqn:G.
  - apply Bool.andb_true_iff in G; destruct G as [G1 G2].
    apply Rltb_true in G1; apply Rltb_true in G2.
    split; [|split; [|split]].
    + intros Ex Ey. exfalso. unfold d in G2. rewrite Ex, Ey, distance_same in G2. lra.
    + intro; lra.
    + intro; lra.
    + intros _; cbv zeta. split; [|split; [reflexivity|split; [reflexivity|split]]].
      * pose proof (distance_sq (Player.x p1) (Player.y p1) (Player.x p2) (Player.y p2)) as E.
        fold d in E.
        transitivity (((Player.x p2 - Player.x p1) * (Player.x p2 - Player.x p1) +
                       (Player.y p2 - Player.y p1) * (Player.y p2 - Player.y p1)) / (d * d)).
        { field; lra. }
        rewrite <- E. field; lra.
      * simpl. apply push_apart_distance; [exact G2 | lra].
      * simpl; split; lra.
  - apply Bool.andb_false_iff in G.
    repeat split; auto; intros; exfalso;
      destruct G as [G|G]; apply Rltb_false in G; lra.
Qed.

Lemma C9_witness :
  0 < distance (Player.x defender) (Player.y defender) (Player.x ai_with_ball) (Player.y ai_with_ball)
    < CONFIG.PLAYER_RADIUS * 2 /\
  let '(q1, q2) := resolvePlayerCollision defender ai_with_ball in
  distance (Player.x q1) (Player.y q1) (Player.x q2) (Player.y q2) = CONFIG.PLAYER_RADIUS * 2.
Proof.
  assert (Hd : 0 < distance (Player.x defender) (Player.y defender)
                     (Player.x ai_with_ball) (Player.y ai_with_ball) < CONFIG.PLAYER_RADIUS * 2)
    by (rewrite defender_distance; unfold CONFIG.PLAYER_RADIUS; lra).
  split; [exact Hd|].
  generalize (C9_resolvePlayerCollision defender ai_with_ball); cbv zeta.
  destruct (resolvePlayerCollision defender ai_with_ball) as [q1 q2].
  intros [_ [_ [_ H]]]. exact (proj1 (proj2 (proj2 (proj2 (H Hd))))).
Defined.

(** The first pickup test of [handleBallPickup] moves neither the ball nor
    the AI. *)
Lemma pickup_by_player_positions (s : GameScene.Scene) :
  let s' := GameScene.pickup_by s TPlayer in
  Ball.x (GameScene.ball s') = Ball.x (GameScene.ball s) /\
  Ball.y (GameScene.ball s') = Ball.y (GameScene.ball s) /\
  Player.x (GameScene.ai s') = Player.x (GameScene.ai s) /\
  Player.y (GameScene.ai s') = Player.y (GameScene.ai s).
Proof.
  unfold GameScene.pickup_by; simpl.
  destruct (team_eqb (Rules.possession (GameScene.rules s)) TPlayer); simpl; auto.
Qed.

(** C10: when both players are strictly within the pickup radius
    [3 * PLAYER_RADIUS] of the ball, [handleBallPickup] hands the ball to
    the AI: its test runs second and overwrites the human's pickup, so
    afterwards [ai.hasBall] is true, [player.hasBall] is false, the ball is
    [held] and its holder is ['ai'].  (The caller only runs it on a free
    ball; the outcome does not depend on the ball's state.) *)
Theorem C10_pickup_tie_goes_to_ai (s : GameScene.Scene) :
  distance (Ball.x (GameScene.ball s)) (Ball.y (GameScene.ball s))
           (Player.x (GameScene.player s)) (Player.y (GameScene.player s))
    < CONFIG.PLAYER_RADIUS * 3 ->
  distance (Ball.x (GameScene.ball s)) (Ball.y (GameScene.ball s))
           (Player.x (GameScene.ai s)) (Player.y (GameScene.ai s))
    < CONFIG.PLAYER_RADIUS * 3 ->
  let s' := GameScene.handleBallPickup s in
  Player.hasBall (GameScene.ai s') = true /\
  Player.hasBall (GameScene.player s') = false /\
  Ball.state (GameScene.ball s') = Held /\
  Ball.holderId (GameScene.ball s') = Some TAi.
Proof.
  intros Hp Ha s'. unfold s', GameScene.handleBallPickup.
  apply Rltb_true in Hp. rewrite Hp.
  destruct (pickup_by_player_positions s) as [Ex [Ey [Ax Ay]]].
  rewrite Ex, Ey, Ax, Ay. apply Rltb_true in Ha. rewrite Ha.
  set (s1 := GameScene.pickup_by s TPlayer).
  unfold GameScene.pickup_by; simpl.
  destruct (team_eqb (Rules.possession (GameScene.rules s1)) TAi); simpl; auto.
Qed.

(** A free ball midway between the two players, a quarter metre from each. *)
Definition scene_loose_ball : GameScene.Scene :=
  {| GameScene.player := Player.new 7.5 6.7;
     GameScene.ai := Player.new 7.5 6.2;
     GameScene.ball := Ball.with_kin Ball.new 7.5 6.45 0 0 0 0;
     GameScene.rules := Rules.startLiveBall (Rules.new settings24);
     GameScene.outOfBoundsTimer := None |}.

Lemma C10_witness :
  Ball.state (GameScene.ball scene_loose_ball) = Free /\
  Player.hasBall (GameScene.ai (GameScene.handleBallPickup scene_loose_ball)) = true /\
  Player.hasBall (GameScene.player (GameScene.handleBallPickup scene_loose_ball)) = false /\
  Ball.holderId (GameScene.ball (GameScene.handleBallPickup scene_loose_ball)) = Some TAi.
Proof.
  assert (Hp : distance 7.5 6.45 7.5 6.7 < CONFIG.PLAYER_RADIUS * 3).
  { replace (distance 7.5 6.45 7.5 6.7) with 0.25
      by (symmetry; unfold distance; apply sqrt_sq_eq; lra).
    unfold CONFIG.PLAYER_RADIUS; lra. }
  assert (Ha : distance 7.5 6.45 7.5 6.2 < CONFIG.PLAYER_RADIUS * 3).
  { replace (distance 7.5 6.45 7.5 6.2) with 0.25
      by (symmetry; unfold distance; apply sqrt_sq_eq; lra).
    unfold CONFIG.PLAYER_RADIUS; lra. }
  destruct (C10_pickup_tie_goes_to_ai scene_loose_ball Hp Ha) as [H1 [H2 [_ H4]]].
  split; [reflexivity|]. split; [exact H1|]. split; [exact H2|exact H4].
Defined.

(** * Further properties of the code *)

(** ** Helpers *)

Lemma sqrt_lt_of_sq (a b : R) : 0 <= a -> 0 <= b -> a < b * b -> sqrt a < b.
Proof.
  intros Ha Hb H. rewrite <- (sqrt_square b Hb). apply sqrt_lt_1_alt; lra.
Qed.

Lemma sq_le (u c : R) : - c <= u <= c -> u * u <= c * c.
Proof. intros [H1 H2]. nra. Qed.

Lemma sq_nonneg (u : R) : 0 <= u * u.
Proof. nra. Qed.

(** The flags a stage of [Ball.update] must carry over: the holder is kept,
    the out-of-bounds flag is never cleared, [Held] is neither entered nor
    left, and [InFlight] is never entered. *)
Definition flags_follow (b b' : Ball.Ball) : Prop :=
  Ball.holderId b' = Ball.holderId b /\
  (Ball.isOutOfBounds b = true -> Ball.isOutOfBounds b' = true) /\
  (Ball.state b' = Held <-> Ball.state b = Held) /\
  (Ball.state b' = InFlight -> Ball.state b = InFlight).

Lemma flags_follow_trans b1 b2 b3 :
  flags_follow b1 b2 -> flags_follow b2 b3 -> flags_follow b1 b3.
Proof. unfold flags_follow; intuition congruence. Qed.

Lemma flags_follow_stages (b : Ball.Ball) :
  Ball.state b <> Held ->
  flags_follow b (Ball.ground b) /\ flags_follow b (Ball.rim b) /\
  flags_follow b (Ball.backboard b) /\ flags_follow b (Ball.checkBounds b).
Proof.
  intro Hs. unfold flags_follow, Ball.ground, Ball.rim, Ball.backboard, Ball.checkBounds.
  repeat split;
  repeat match goal with |- context [if ?c then _ else _] => destruct c end; simpl;
  intuition congruence.
Qed.

Lemma update_timers (p : Player.Player) (b : PlayerMotion.Body) (dt : R) :
  let p' := fst (PlayerMotion.update p b dt) in
  Player.stealCooldown p' = Rmax 0 (Player.stealCooldown p - dt) /\
  Player.stepBackCooldown p' = Rmax 0 (Player.stepBackCooldown p - dt) /\
  Player.invulnerableTime p' = Rmax 0 (Player.invulnerableTime p - dt).
Proof.
  cbv zeta. unfold PlayerMotion.update, PlayerMotion.updateStamina; simpl.
  destruct (PlayerMotion.isSprinting _);
  [destruct (Rltb _ 0) | destruct (Rltb CONFIG.STAMINA_MAX _)]; simpl; auto.
Qed.

Lemma Rmax0_sub (c a b : R) : 0 <= a -> 0 <= b -> Rmax 0 (Rmax 0 (c - a) - b) = Rmax 0 (c - (a + b)).
Proof.
  intros Ha Hb. destruct (Rle_dec 0 (c - a)).
  - rewrite (Rmax_right 0 (c - a)) by lra. f_equal; ring.
  - rewrite (Rmax_left 0 (c - a)) by lra. rewrite (Rmax_left 0 (0 - b)) by lra.
    rewrite Rmax_left by lra. reflexivity.
Qed.

Lemma getEffectiveSpeed_pos (p : Player.Player) (b : PlayerMotion.Body) :
  0 < PlayerMotion.getEffectiveSpeed p b.
Proof.
  unfold PlayerMotion.getEffectiveSpeed, CONFIG.BASE_SPEED, CONFIG.SPRINT_MULTIPLIER,
    CONFIG.LOW_STAMINA_SPEED_PENALTY.
  destruct (_ && _); destruct (Rltb _ _); lra.
Qed.


Lemma setup_rules (s : GameScene.Scene) :
  GameScene.rules (GameScene.setupInitialPositions s) = GameScene.rules s.
Proof. unfold GameScene.setupInitialPositions; destruct (Rules.possession _); reflexivity. Qed.

Lemma step_aiShots (s s' : GameScene.Scene) :
  Orchestrator.step s s' -> Rules.aiShots (GameScene.rules s') = Rules.aiShots (GameScene.rules s).
Proof.
  intro H; destruct H; simpl; try reflexivity.
  - unfold GameScene.tickRules. cbv zeta.
    assert (E : Rules.aiShots (Rules.update (GameScene.rules s) dt) = Rules.aiShots (GameScene.rules s))
      by (unfold Rules.update; destruct (_ && _); [destruct (clock_le0 _)|]; reflexivity).
    simpl. destruct (Rules.gameState (GameScene.rules s)), (Rules.gameState (Rules.update (GameScene.rules s) dt));
      rewrite ?setup_rules; exact E.
  - rewrite setup_rules; reflexivity.
  - unfold GameScene.handleBallPickup, GameScene.pickup_by. cbv zeta.
    repeat match goal with |- context [if ?c then _ else _] => destruct c end; reflexivity.
  - unfold GameScene.player_steal. destruct (Player.attemptSteal _ _ _) as [p ok].
    destruct ok; reflexivity.
  - unfold GameScene.player_shot_input.
    destruct (Player.hasBall (GameScene.player s)); [|reflexivity].
    destruct (isDown && _); cbv zeta;
    (destruct (Player.shotCharging _); [|reflexivity]);
    (destruct isDown; [reflexivity|]);
    (destruct (Player.executeShot _) as [p [d|]]; reflexivity).
  - unfold GameScene.ai_executeShoot.
    destruct (negb (Player.hasBall (GameScene.ai s))); [reflexivity|]. cbv zeta.
    destruct (negb (Player.shotCharging (GameScene.ai s)));
    (destruct (Rleb _ _); [|reflexivity]);
    (destruct (Player.executeShot _) as [p [d|]]; reflexivity).
  - unfold GameScene.ai_executeLayup.
    destruct (negb _); [reflexivity|]. cbv zeta.
    destruct (Rltb _ _); [|reflexivity].
    destruct (Player.executeShot _) as [p [d|]]; reflexivity.
  - unfold GameScene.handleOutOfBounds.
    destruct (Ball.isOutOfBounds _), (GameScene.outOfBoundsTimer s); simpl; try reflexivity.
    destruct (Rleb _ 0); simpl; [|reflexivity].
    rewrite setup_rules; simpl. reflexivity.
  - unfold GameScene.handleScore.
    destruct (Ball.isScore _); simpl; [|reflexivity].
    rewrite setup_rules; simpl. unfold Rules.scorePoints.
    repeat match goal with |- context [if ?c then _ else _] => destruct c end;
    repeat match goal with |- context [match ?t with TPlayer => _ | TAi => _ end] => destruct t end;
    reflexivity.
  - unfold GameScene.handleResetKey. cbv zeta.
    repeat match goal with |- context [match ?t with TPlayer => _ | TAi => _ end] => destruct t end;
    reflexivity.
Qed.

Lemma optimalPower_le_max (acc d : R) :
  GameScene.calculateOptimalPowerForDistance acc d <= CONFIG.MAX_SHOT_POWER.
Proof. unfold GameScene.calculateOptimalPowerForDistance; apply Rmin_r. Qed.

Lemma ai_shoot_tick (acc : R) (s : GameScene.Scene) :
  Player.hasBall (GameScene.ai s) = true ->
  let P := if Player.shotCharging (GameScene.ai s) then Player.shotPower (GameScene.ai s) else 0 in
  let s' := GameScene.ai_executeShoot acc s in
  (Player.hasBall (GameScene.ai s') = false /\ Ball.state (GameScene.ball s') = InFlight) \/
  (Player.hasBall (GameScene.ai s') = true /\ Player.shotCharging (GameScene.ai s') = true /\
   Player.shotPower (GameScene.ai s') =
     clamp (P + CONFIG.POWER_CHARGE_RATE * (1 / 60)) CONFIG.MIN_SHOT_POWER CONFIG.MAX_SHOT_POWER /\
   Player.shotPower (GameScene.ai s') < 0.9).
Proof.
  intros H; cbv zeta. unfold GameScene.ai_executeShoot. rewrite H. simpl negb. cbv iota zeta.
  destruct (Player.shotCharging (GameScene.ai s)) eqn:C; simpl negb; cbv iota;
  [|unfold Player.startShot; rewrite H; simpl negb; cbv iota];
  (destruct (Rleb _ _) eqn:E;
   [ left; unfold Player.chargeShot; simpl; rewrite ?C; simpl;
     unfold Player.executeShot; simpl; rewrite ?C, ?H; simpl; split; reflexivity
   | right; apply Rleb_false in E;
     match type of E with context [GameScene.calculateOptimalPowerForDistance ?a ?d] =>
       pose proof (optimalPower_le_max a d) end;
     unfold Player.chargeShot in *; simpl in *; rewrite ?C in *; simpl in *;
     rewrite ?H; unfold CONFIG.MAX_SHOT_POWER in *; repeat split; auto; lra ]).
Qed.

Lemma ai_shoot_idle (acc : R) (s : GameScene.Scene) :
  Player.hasBall (GameScene.ai s) = false -> GameScene.ai_executeShoot acc s = s.
Proof. intro H. unfold GameScene.ai_executeShoot. rewrite H. reflexivity. Qed.

Lemma ai_shoot_progress (acc : R) (n : nat) (s : GameScene.Scene) :
  Player.hasBall (GameScene.ai s) = true ->
  let s' := Nat.iter (S n) (GameScene.ai_executeShoot acc) s in
  (Player.hasBall (GameScene.ai s') = false /\ Ball.state (GameScene.ball s') = InFlight) \/
  (Player.hasBall (GameScene.ai s') = true /\ Player.shotCharging (GameScene.ai s') = true /\
   0.2 + 0.02 * INR n <= Player.shotPower (GameScene.ai s') < 0.9).
Proof.
  intros H; cbv zeta. induction n as [|n IH].
  - simpl Nat.iter. destruct (ai_shoot_tick acc s H) as [L|(R1 & R2 & R3 & R4)]; [left; exact L|].
    right. split; [exact R1|]. split; [exact R2|]. split; [|exact R4].
    rewrite R3. unfold clamp, CONFIG.MIN_SHOT_POWER, CONFIG.MAX_SHOT_POWER.
    simpl INR. apply Rmin_glb; [|lra]. eapply Rle_trans; [|apply Rmax_r]. lra.
  - change (Nat.iter (S (S n)) (GameScene.ai_executeShoot acc) s) with
      (GameScene.ai_executeShoot acc (Nat.iter (S n) (GameScene.ai_executeShoot acc) s)).
    set (s1 := Nat.iter (S n) (GameScene.ai_executeShoot acc) s) in *.
    destruct IH as [[L1 L2]|(R1 & R2 & R3 & R4)].
    + left. rewrite ai_shoot_idle by exact L1. split; assumption.
    + destruct (ai_shoot_tick acc s1 R1) as [L|(T1 & T2 & T3 & T4)]; [left; exact L|].
      right. split; [exact T1|]. split; [exact T2|]. split; [|exact T4].
      rewrite R2 in T3. rewrite T3 in T4 |- *.
      unfold clamp, CONFIG.MIN_SHOT_POWER, CONFIG.MAX_SHOT_POWER, CONFIG.POWER_CHARGE_RATE in *.
      rewrite S_INR.
      destruct (Rle_dec (Rmax (Player.shotPower (GameScene.ai s1) + 1.2 * (1 / 60)) 0.2) 1).
      * rewrite Rmin_left in * by lra.
        pose proof (Rmax_l (Player.shotPower (GameScene.ai s1) + 1.2 * (1 / 60)) 0.2). lra.
      * rewrite Rmin_right in T4 by lra. lra.
Qed.

Module RandomFacts.
Import Random.

Lemma toInt32_range (v : Z) : (- 2 ^ 31 <= toInt32 v < 2 ^ 31)%Z.
Proof.
  unfold toInt32. pose proof (Z.mod_pos_bound v (2 ^ 32) ltac:(lia)).
  destruct (Z.leb_spec (2 ^ 31) (v mod 2 ^ 32)); lia.
Qed.

Lemma toInt32_mod (v : Z) : (toInt32 v mod 2 ^ 32 = v mod 2 ^ 32)%Z.
Proof.
  unfold toInt32. destruct (2 ^ 31 <=? v mod 2 ^ 32)%Z.
  - replace (v mod 2 ^ 32 - 2 ^ 32)%Z with (v mod 2 ^ 32 + (-1) * 2 ^ 32)%Z by ring.
    rewrite Z.mod_add by lia. apply Z.mod_mod; lia.
  - apply Z.mod_mod; lia.
Qed.

Lemma testbit_low (v i : Z) : (0 <= i < 32)%Z -> Z.testbit (toInt32 v) i = Z.testbit v i.
Proof.
  intros Hi.
  rewrite <- (Z.mod_pow2_bits_low (toInt32 v) 32 i) by lia.
  rewrite <- (Z.mod_pow2_bits_low v 32 i) by lia.
  rewrite toInt32_mod. reflexivity.
Qed.

Lemma sign_bits (w j : Z) : (- 2 ^ 31 <= w < 2 ^ 31)%Z -> (31 <= j)%Z ->
  Z.testbit w j = Z.testbit w 31.
Proof.
  intros Hw Hj.
  assert (Hp : (2 ^ 31 <= 2 ^ j)%Z) by (apply Z.pow_le_mono_r; lia).
  assert (D : forall k, (31 <= k)%Z -> (w / 2 ^ k = if (w <? 0)%Z then -1 else 0)%Z).
  { intros k Hk. assert (Hpk : (2 ^ 31 <= 2 ^ k)%Z) by (apply Z.pow_le_mono_r; lia).
    destruct (Z.ltb_spec w 0).
    - symmetry. apply (Z.div_unique w (2 ^ k) (-1) (w + 2 ^ k)); lia.
    - apply Z.div_small; lia. }
  apply Bool.eq_true_iff_eq.
  rewrite !Z.testbit_true by lia. rewrite (D j Hj), (D 31%Z ltac:(lia)). reflexivity.
Qed.

Lemma next_state_bit31 (x1 : Z) : Z.testbit (xor x1 (sar x1 17)) 31 = false.
Proof.
  unfold xor, sar. rewrite Z.lxor_spec.
  rewrite (testbit_low (Z.shiftr (toInt32 x1) 17) 31%Z) by lia.
  rewrite Z.shiftr_spec by lia.
  rewrite (sign_bits (toInt32 x1) (31 + 17)%Z) by (apply toInt32_range || lia).
  destruct (Z.testbit (toInt32 x1) 31); reflexivity.
Qed.

Lemma xorshift5_bits (y i : Z) : (0 <= i < 32)%Z ->
  Z.testbit (xor y (shl y 5)) i =
  xorb (Z.testbit y i) (if (5 <=? i)%Z then Z.testbit y (i - 5) else false).
Proof.
  intros Hi. unfold xor, shl. rewrite Z.lxor_spec.
  rewrite !testbit_low by lia.
  rewrite Z.shiftl_spec by lia.
  destruct (Z.leb_spec 5 i).
  - rewrite (testbit_low y (i - 5)) by lia. reflexivity.
  - rewrite (Z.testbit_neg_r (toInt32 y) (i - 5)) by lia. reflexivity.
Qed.

Lemma next_not_all_ones (r : Random) :
  let x := state r in
  let x := xor x (shl x 13) in
  let x := xor x (sar x 17) in
  let x := xor x (shl x 5) in
  (toUint32 x <> 2 ^ 32 - 1)%Z.
Proof.
  cbv zeta. set (y := xor (xor (state r) (shl (state r) 13)) (sar (xor (state r) (shl (state r) 13)) 17)).
  assert (H31 : Z.testbit y 31 = false) by apply next_state_bit31.
  intro E.
  assert (Hall : forall i, (0 <= i < 32)%Z -> Z.testbit (xor y (shl y 5)) i = true).
  { intros i Hi. rewrite <- (Z.mod_pow2_bits_low _ 32 i) by lia.
    unfold toUint32 in E. rewrite E.
    change (2 ^ 32 - 1)%Z with (Z.ones 32). rewrite Z.testbit_ones_nonneg by lia.
    apply Z.ltb_lt. lia. }
  assert (Hstep : forall i, (5 <= i < 32)%Z -> Z.testbit y i = negb (Z.testbit y (i - 5))).
  { intros i Hi. pose proof (Hall i ltac:(lia)) as Ei.
    rewrite xorshift5_bits in Ei by lia.
    rewrite (proj2 (Z.leb_le 5 i)) in Ei by lia.
    destruct (Z.testbit y i), (Z.testbit y (i - 5)); simpl in *; congruence. }
  assert (H1 : Z.testbit y 1 = true).
  { pose proof (Hall 1%Z ltac:(lia)) as Ei. rewrite xorshift5_bits in Ei by lia.
    change ((5 <=? 1)%Z) with false in Ei. rewrite Bool.xorb_false_r in Ei. exact Ei. }
  pose proof (Hstep 6%Z ltac:(lia)) as H6. change (6 - 5)%Z with 1%Z in H6.
  pose proof (Hstep 11%Z ltac:(lia)) as H11. change (11 - 5)%Z with 6%Z in H11.
  pose proof (Hstep 16%Z ltac:(lia)) as H16. change (16 - 5)%Z with 11%Z in H16.
  pose proof (Hstep 21%Z ltac:(lia)) as H21. change (21 - 5)%Z with 16%Z in H21.
  pose proof (Hstep 26%Z ltac:(lia)) as H26. change (26 - 5)%Z with 21%Z in H26.
  pose proof (Hstep 31%Z ltac:(lia)) as H31'. change (31 - 5)%Z with 26%Z in H31'.
  rewrite H26, H21, H16, H11, H6, H1, H31 in H31'. discriminate.
Qed.

Lemma next_in_unit (r : Random) : 0 <= snd (next r) < 1.
Proof.
  pose proof (next_not_all_ones r) as N. cbv zeta in N.
  unfold next; simpl.
  set (x := xor _ _) in *.
  assert (B : (0 <= toUint32 x < 2 ^ 32)%Z) by (unfold toUint32; apply Z.mod_pos_bound; lia).
  assert (B' : (toUint32 x <= 4294967294)%Z) by (simpl in *; lia).
  assert (Hpos : 0 < IZR 4294967295) by (apply IZR_lt; lia).
  split.
  - unfold Rdiv. apply Rmult_le_pos; [apply IZR_le; lia | left; apply Rinv_0_lt_compat; exact Hpos].
  - apply IZR_le in B'. unfold Rdiv.
    apply (Rmult_lt_reg_r (IZR 4294967295)); [exact Hpos|].
    rewrite Rmult_assoc, Rinv_l by lra. rewrite Rmult_1_r, Rmult_1_l.
    apply (Rle_lt_trans _ _ _ B'). apply IZR_lt; lia.
Qed.

Lemma Math_floor_spec (r : R) : IZR (Math_floor r) <= r < IZR (Math_floor r) + 1.
Proof.
  unfold Math_floor. destruct (archimed r) as [H1 H2].
  rewrite minus_IZR. simpl. lra.
Qed.

Lemma floor_index (v : R) (n : Z) : 0 <= v < 1 -> (1 <= n)%Z ->
  (0 <= Math_floor (v * IZR n) <= n - 1)%Z.
Proof.
  intros Hv Hn. pose proof (Math_floor_spec (v * IZR n)) as [F1 F2].
  assert (Hn' : 1 <= IZR n) by (apply IZR_le; lia).
  assert (0 <= v * IZR n) by (apply Rmult_le_pos; lra).
  assert (v * IZR n < IZR n) by nra.
  split.
  - assert (-1 < Math_floor (v * IZR n))%Z; [|lia].
    apply lt_IZR. simpl. lra.
  - assert (Math_floor (v * IZR n) < n)%Z; [|lia].
    apply lt_IZR. lra.
Qed.

Lemma int_in_range (r : Random) (min max : Z) :
  (min <= max)%Z -> (min <= snd (int r min max) <= max)%Z.
Proof.
  intro H. unfold int. destruct (next r) as [r' v] eqn:E. simpl.
  pose proof (next_in_unit r) as Hv. rewrite E in Hv. simpl in Hv.
  pose proof (floor_index v (max - min + 1) Hv ltac:(lia)). lia.
Qed.

Lemma js_index_in {A : Type} (l : list A) (i : Z) :
  (0 <= i < Z.of_nat (length l))%Z -> exists a, js_index l i = Some a /\ In a l.
Proof.
  intros Hi. unfold js_index. rewrite (proj2 (Z.ltb_ge i 0)) by lia.
  destruct (nth_error l (Z.to_nat i)) as [a|] eqn:E.
  - exists a. split; [reflexivity|]. eapply nth_error_In; exact E.
  - apply nth_error_None in E. lia.
Qed.




End RandomFacts.

(** ** Properties of the code *)

(** A body at rest with the sprint flag off, used in the witnesses below. *)
Definition body0 : PlayerMotion.Body :=
  PlayerMotion.mkBody 0 0 0 false 0 PlayerMotion.Idle.

(** X1 ([isInKey], [isThreePoint]): every spot inside the key is a
    two-point spot. *)
Lemma X1_key_is_two_point (x y : R) :
  isInKey x y = true -> isThreePoint x y = false.
Proof.
  unfold isInKey, isThreePoint, CONFIG.COURT_WIDTH, CONFIG.KEY_WIDTH,
    CONFIG.BACKBOARD_DISTANCE, CONFIG.KEY_LENGTH, CONFIG.THREE_POINT_RADIUS.
  intro H. cbv zeta in *. repeat (apply andb_prop in H; destruct H as [H ?]).
  repeat match goal with Hr : Rleb _ _ = true |- _ => apply Rleb_true in Hr end.
  apply Rleb_false. unfold distance. cbv zeta.
  pose proof (sq_nonneg (15 / 2 - x)); pose proof (sq_nonneg (1.2 - y)).
  pose proof (sq_le (15 / 2 - x) 2.45 ltac:(lra)).
  pose proof (sq_le (1.2 - y) 5.8 ltac:(lra)).
  apply sqrt_lt_of_sq; lra.
Qed.

Lemma X1_witness : isInKey 7.5 3 = true /\ isThreePoint 7.5 3 = false.
Proof.
  assert (H : isInKey 7.5 3 = true).
  { unfold isInKey, CONFIG.COURT_WIDTH, CONFIG.KEY_WIDTH, CONFIG.BACKBOARD_DISTANCE,
      CONFIG.KEY_LENGTH. cbv zeta. rdecide. reflexivity. }
  split; [exact H | exact (X1_key_is_two_point 7.5 3 H)].
Defined.

(** X2 ([Ball.update]): a ball that is not held never ends an update below
    the floor: its height is at least [BALL_RADIUS]. *)
Lemma X2_ball_above_floor (b : Ball.Ball) (dt : R) :
  Ball.state b <> Held -> CONFIG.BALL_RADIUS <= Ball.z (Ball.update b dt).
Proof.
  intro Hs. unfold Ball.update. destruct (Ball.state b) eqn:E; [|congruence|];
  set (b1 := Ball.integrate b dt);
  assert (Hg : CONFIG.BALL_RADIUS <= Ball.z (Ball.ground b1)) by
    (unfold Ball.ground; destruct (Rleb (Ball.z b1) CONFIG.BALL_RADIUS) eqn:G;
     [destruct (Rltb _ 0.5); simpl; lra | apply Rleb_false in G; lra]);
  unfold Ball.checkBounds, Ball.backboard, Ball.rim;
  repeat match goal with |- context [if ?c then _ else _] => destruct c end; simpl; exact Hg.
Qed.

Lemma X2_witness :
  Ball.state Ball.new <> Held /\ CONFIG.BALL_RADIUS <= Ball.z (Ball.update Ball.new (1 / 60)).
Proof.
  assert (H : Ball.state Ball.new <> Held) by (simpl; discriminate).
  split; [exact H | exact (X2_ball_above_floor Ball.new (1 / 60) H)].
Defined.

(** X3 ([Ball.update]): an update keeps the holder, never clears the
    out-of-bounds flag, neither enters nor leaves [Held], and never puts a
    ball in flight. *)
Lemma X3_ball_update_flags (b : Ball.Ball) (dt : R) :
  let b' := Ball.update b dt in
  Ball.holderId b' = Ball.holderId b /\
  (Ball.isOutOfBounds b = true -> Ball.isOutOfBounds b' = true) /\
  (Ball.state b' = Held <-> Ball.state b = Held) /\
  (Ball.state b' = InFlight -> Ball.state b = InFlight).
Proof.
  cbv zeta. fold (flags_follow b (Ball.update b dt)).
  unfold Ball.update.
  destruct (Ball.state b) eqn:E;
  [| unfold flags_follow; simpl; rewrite E; intuition congruence |];
  (assert (H0 : Ball.state (Ball.integrate b dt) <> Held) by (simpl; congruence);
   assert (F0 : flags_follow b (Ball.integrate b dt)) by (unfold flags_follow; simpl; intuition congruence);
   set (b1 := Ball.integrate b dt) in *; clearbody b1;
   destruct (flags_follow_stages b1 H0) as [F1 _];
   assert (H1 : Ball.state (Ball.ground b1) <> Held) by (destruct F1 as (_&_&F&_); intro; apply H0, F; auto);
   set (b2 := Ball.ground b1) in *; clearbody b2;
   destruct (flags_follow_stages b2 H1) as [_ [F2 _]];
   assert (H2 : Ball.state (Ball.rim b2) <> Held) by (destruct F2 as (_&_&F&_); intro; apply H1, F; auto);
   set (b3 := Ball.rim b2) in *; clearbody b3;
   destruct (flags_follow_stages b3 H2) as [_ [_ [F3 _]]];
   assert (H3 : Ball.state (Ball.backboard b3) <> Held) by (destruct F3 as (_&_&F&_); intro; apply H2, F; auto);
   set (b4 := Ball.backboard b3) in *; clearbody b4;
   destruct (flags_follow_stages b4 H3) as [_ [_ [_ F4]]];
   eauto 7 using flags_follow_trans).
Qed.

(** X4 ([Ball.update], dribble branch): a held ball keeps its position,
    state and holder, and its height stays between 1.2 and 1.5. *)
Lemma X4_held_ball_update (b : Ball.Ball) (dt : R) :
  Ball.state b = Held ->
  let b' := Ball.update b dt in
  Ball.x b' = Ball.x b /\ Ball.y b' = Ball.y b /\ Ball.state b' = Held /\
  Ball.holderId b' = Ball.holderId b /\ 1.2 <= Ball.z b' <= 1.5.
Proof.
  intros H; cbv zeta. unfold Ball.update; rewrite H; simpl.
  set (a := sin _).
  pose proof (SIN_bound ((Ball.dribbleTime b + dt) * 2.0 * PI)) as Hs; fold a in Hs.
  pose proof (Rabs_pos a).
  assert (Rabs a <= 1) by (apply Rabs_le; lra).
  repeat split; auto; lra.
Qed.

Lemma X4_witness :
  Ball.state (Ball.attachTo Ball.new TPlayer 7.5 7.8) = Held /\
  1.2 <= Ball.z (Ball.update (Ball.attachTo Ball.new TPlayer 7.5 7.8) 0.1) <= 1.5.
Proof.
  assert (H : Ball.state (Ball.attachTo Ball.new TPlayer 7.5 7.8) = Held) by reflexivity.
  split; [exact H|].
  exact (proj2 (proj2 (proj2 (proj2 (X4_held_ball_update _ 0.1 H))))).
Defined.

(** X5 ([Ball.update]): a free ball lying still on the floor stays where it
    is, at rest, for any frame of at most 1/15 s. *)
Lemma X5_resting_ball_stays (b : Ball.Ball) (dt : R) :
  Ball.state b = Free -> Ball.z b = CONFIG.BALL_RADIUS ->
  Ball.vx b = 0 -> Ball.vy b = 0 -> Ball.vz b = 0 ->
  0 <= dt <= 1 / 15 ->
  let b' := Ball.update b dt in
  Ball.x b' = Ball.x b /\ Ball.y b' = Ball.y b /\ Ball.z b' = CONFIG.BALL_RADIUS /\
  Ball.vx b' = 0 /\ Ball.vy b' = 0 /\ Ball.vz b' = 0 /\ Ball.state b' = Free.
Proof.
  intros Hs Hz Hvx Hvy Hvz Hdt; cbv zeta.
  unfold Ball.update; rewrite Hs.
  unfold Ball.integrate, Ball.ground; simpl.
  rewrite Hz, Hvx, Hvy, Hvz.
  unfold CONFIG.BALL_RADIUS, CONFIG.GRAVITY, CONFIG.BOUNCE_FACTOR, CONFIG.FRICTION_AIR,
    CONFIG.FRICTION_GROUND.
  assert (0 <= dt * dt) by nra.
  rewrite (proj2 (Rleb_true _ _)) by nra.
  rewrite (proj2 (Rltb_true _ _)) by (rewrite Rabs_right; nra).
  unfold Ball.rim, Ball.backboard, Ball.is_inFlight; simpl.
  unfold Ball.checkBounds.
  destruct (_ || _); simpl; repeat split; lra.
Qed.

Lemma X5_witness :
  let b := Ball.with_kin Ball.new 7.5 7 CONFIG.BALL_RADIUS 0 0 0 in
  Ball.z (Ball.update b (1 / 60)) = CONFIG.BALL_RADIUS /\ Ball.x (Ball.update b (1 / 60)) = 7.5.
Proof.
  cbv zeta.
  destruct (X5_resting_ball_stays (Ball.with_kin Ball.new 7.5 7 CONFIG.BALL_RADIUS 0 0 0) (1 / 60)
              eq_refl eq_refl eq_refl eq_refl eq_refl ltac:(lra)) as (Hx & _ & Hz & _).
  split; [exact Hz | exact Hx].
Defined.

(** X6 ([Ball.update]): a ball that is not held never speeds up
    horizontally; friction, bounces and the rim and backboard only slow it. *)
Lemma X6_ball_hspeed_nonincreasing (b : Ball.Ball) (dt : R) :
  Ball.state b <> Held ->
  let b' := Ball.update b dt in
  Ball.vx b' * Ball.vx b' + Ball.vy b' * Ball.vy b' <= Ball.vx b * Ball.vx b + Ball.vy b * Ball.vy b.
Proof.
  intros Hs; cbv zeta. unfold Ball.update.
  destruct (Ball.state b) eqn:E; [|congruence|];
  set (b1 := Ball.integrate b dt);
  assert (H1 : Ball.vx b1 * Ball.vx b1 + Ball.vy b1 * Ball.vy b1 <=
               Ball.vx b * Ball.vx b + Ball.vy b * Ball.vy b) by
    (unfold b1, Ball.integrate, CONFIG.FRICTION_AIR; simpl;
     nra);
  set (b2 := Ball.ground b1);
  assert (H2 : Ball.vx b2 * Ball.vx b2 + Ball.vy b2 * Ball.vy b2 <=
               Ball.vx b1 * Ball.vx b1 + Ball.vy b1 * Ball.vy b1) by
    (unfold b2, Ball.ground, CONFIG.FRICTION_GROUND;
     destruct (Rleb _ _); [destruct (Rltb _ _)|]; simpl; nra);
  clearbody b1 b2;
  unfold Ball.checkBounds, Ball.backboard, Ball.rim;
  repeat match goal with |- context [if ?c then _ else _] => destruct c end; simpl; nra.
Qed.

Lemma X6_witness :
  let b := Ball.with_kin Ball.new 7.5 7 2 3 1 0 in
  Ball.state b <> Held /\
  Ball.vx (Ball.update b (1 / 60)) * Ball.vx (Ball.update b (1 / 60)) +
  Ball.vy (Ball.update b (1 / 60)) * Ball.vy (Ball.update b (1 / 60)) <= 3 * 3 + 1 * 1.
Proof.
  cbv zeta.
  assert (H : Ball.state (Ball.with_kin Ball.new 7.5 7 2 3 1 0) <> Held) by (simpl; discriminate).
  split; [exact H|].
  exact (X6_ball_hspeed_nonincreasing _ (1 / 60) H).
Defined.

(** X7 ([Player.chargeShot]): while charging, the power stays within
    [MIN_SHOT_POWER, MAX_SHOT_POWER], never drops for a non-negative [dt],
    and the ball, the charging flag and the angle are kept. *)
Lemma X7_chargeShot_bounds (p : Player.Player) (dt : R) :
  Player.shotCharging p = true ->
  let q := Player.chargeShot p dt in
  CONFIG.MIN_SHOT_POWER <= Player.shotPower q <= CONFIG.MAX_SHOT_POWER /\
  (0 <= dt -> Player.shotPower p <= CONFIG.MAX_SHOT_POWER -> Player.shotPower p <= Player.shotPower q) /\
  Player.shotCharging q = true /\ Player.hasBall q = Player.hasBall p /\
  Player.shotAngle q = Player.shotAngle p.
Proof.
  intros H; cbv zeta. unfold Player.chargeShot; rewrite H; simpl.
  unfold clamp, CONFIG.MIN_SHOT_POWER, CONFIG.MAX_SHOT_POWER, CONFIG.POWER_CHARGE_RATE.
  repeat split; auto.
  - apply Rmin_glb; [apply Rmax_r | lra].
  - apply Rmin_r.
  - intros Hdt Hp. apply Rmin_glb; [|lra].
    eapply Rle_trans; [|apply Rmax_l]. lra.
Qed.

Lemma X7_witness :
  let p := Player.with_shot (Player.new 7.5 7) true 0 true 0 in
  CONFIG.MIN_SHOT_POWER <= Player.shotPower (Player.chargeShot p 0.5) <= CONFIG.MAX_SHOT_POWER.
Proof.
  cbv zeta. exact (proj1 (X7_chargeShot_bounds (Player.with_shot (Player.new 7.5 7) true 0 true 0) 0.5 eq_refl)).
Defined.

(** X8 ([Player.update], [updateStamina]): stamina that starts in
    [0, STAMINA_MAX] stays there after an update with [dt >= 0]. *)
Lemma X8_stamina_in_range (p : Player.Player) (b : PlayerMotion.Body) (dt : R) :
  0 <= dt -> 0 <= Player.stamina p <= CONFIG.STAMINA_MAX ->
  0 <= Player.stamina (fst (PlayerMotion.update p b dt)) <= CONFIG.STAMINA_MAX.
Proof.
  intros Hdt Hs. unfold PlayerMotion.update.
  unfold PlayerMotion.updateStamina; simpl.
  unfold CONFIG.STAMINA_MAX, CONFIG.STAMINA_SPRINT_DRAIN, CONFIG.STAMINA_REGEN in *.
  destruct (PlayerMotion.isSprinting _) eqn:?.
  - destruct (Rltb _ 0) eqn:E; simpl; [lra|apply Rltb_false in E; lra].
  - destruct (Rltb 100 _) eqn:E; simpl; [lra|apply Rltb_false in E; lra].
Qed.

Lemma X8_witness :
  0 <= Player.stamina (fst (PlayerMotion.update (Player.new 7.5 7)
                             (PlayerMotion.set_sprinting body0 true) (1 / 60))) <= CONFIG.STAMINA_MAX.
Proof.
  apply X8_stamina_in_range; [lra|]. simpl. unfold CONFIG.STAMINA_MAX. lra.
Defined.

(** X9 ([Player.update]): after [n + 1] updates with the same [dt >= 0],
    each of the steal cooldown, the step-back cooldown and the invulnerable
    time is its start value minus the elapsed time, floored at 0. *)
Lemma X9_timers_after_updates (n : nat) (p : Player.Player) (b : PlayerMotion.Body) (dt : R) :
  0 <= dt ->
  let p' := fst (update_n (S n) p b dt) in
  Player.stealCooldown p' = Rmax 0 (Player.stealCooldown p - INR (S n) * dt) /\
  Player.stepBackCooldown p' = Rmax 0 (Player.stepBackCooldown p - INR (S n) * dt) /\
  Player.invulnerableTime p' = Rmax 0 (Player.invulnerableTime p - INR (S n) * dt).
Proof.
  intros Hdt; cbv zeta. revert p b. induction n as [|n IH]; intros p b.
  - simpl update_n. destruct (PlayerMotion.update p b dt) as [p1 b1] eqn:E.
    pose proof (update_timers p b dt) as T. rewrite E in T. simpl in *.
    rewrite !Rmult_1_l. exact T.
  - change (update_n (S (S n)) p b dt) with
      (let '(p', b') := PlayerMotion.update p b dt in update_n (S n) p' b' dt).
    destruct (PlayerMotion.update p b dt) as [p1 b1] eqn:E.
    pose proof (update_timers p b dt) as T. rewrite E in T. simpl fst in T.
    destruct T as (T1 & T2 & T3).
    destruct (IH p1 b1) as (I1 & I2 & I3).
    rewrite I1, I2, I3, T1, T2, T3.
    assert (0 <= INR (S n) * dt) by (apply Rmult_le_pos; [apply pos_INR|exact Hdt]).
    rewrite !Rmax0_sub by lra.
    rewrite (S_INR (S n)). repeat split; f_equal; ring.
Qed.

Lemma X9_witness :
  Player.stealCooldown (fst (update_n 3 (Player.set_stealCooldown (Player.new 7.5 7) 1) body0 0.1)) =
  Rmax 0 (1 - INR 3 * 0.1).
Proof.
  exact (proj1 (X9_timers_after_updates 2 (Player.set_stealCooldown (Player.new 7.5 7) 1) body0 0.1
                  ltac:(lra))).
Defined.

(** X10 ([Player.applyMovement]): after a movement step the speed never
    exceeds the effective speed, and the effective speed is unchanged. *)
Lemma X10_applyMovement_speed_cap (p : Player.Player) (b : PlayerMotion.Body) (dirX dirY : R) :
  let b' := PlayerMotion.applyMovement p b dirX dirY in
  sqrt (PlayerMotion.vx b' * PlayerMotion.vx b' + PlayerMotion.vy b' * PlayerMotion.vy b')
    <= PlayerMotion.getEffectiveSpeed p b /\
  PlayerMotion.getEffectiveSpeed p b' = PlayerMotion.getEffectiveSpeed p b.
Proof.
  cbv zeta. pose proof (getEffectiveSpeed_pos p b) as Hs.
  unfold PlayerMotion.applyMovement. cbv zeta.
  set (s := PlayerMotion.getEffectiveSpeed p b) in *.
  set (vx1 := PlayerMotion.vx b + dirX * CONFIG.ACCELERATION * (1 / 60)).
  set (vy1 := PlayerMotion.vy b + dirY * CONFIG.ACCELERATION * (1 / 60)).
  set (c := sqrt (vx1 * vx1 + vy1 * vy1)).
  assert (Hv : 0 <= vx1 * vx1 + vy1 * vy1)
    by (pose proof (Rle_0_sqr vx1); pose proof (Rle_0_sqr vy1); unfold Rsqr in *; lra).
  assert (Hc : c * c = vx1 * vx1 + vy1 * vy1) by (apply sqrt_sqrt; exact Hv).
  destruct (Rltb s c) eqn:E;
  [apply Rltb_true in E | apply Rltb_false in E];
  destruct (negb _ || negb _); simpl; (split; [|reflexivity]).
  1,2: right; apply sqrt_sq_eq; [lra|];
       transitivity ((vx1 * vx1 + vy1 * vy1) * (s * s) / (c * c)); [field; lra|];
       rewrite <- Hc; field; lra.
  all: exact E.
Qed.

(** X11 ([Player.performStepBack]): during the cooldown a step-back does
    nothing and reports failure.  Otherwise it succeeds. It moves the player
    1.5 m straight back from the facing direction and starts the cooldown and
    the invulnerability window. The steal cooldown, ball, charging flag and
    stamina are kept. *)
Lemma X11_performStepBack_spec (p : Player.Player) (b : PlayerMotion.Body) :
  (0 < Player.stepBackCooldown p -> PlayerMotion.performStepBack p b = (p, false)) /\
  (Player.stepBackCooldown p <= 0 ->
   let '(q, ok) := PlayerMotion.performStepBack p b in
   ok = true /\
   Player.x q = Player.x p - 1.5 * cos (PlayerMotion.facing b) /\
   Player.y q = Player.y p - 1.5 * sin (PlayerMotion.facing b) /\
   distance (Player.x p) (Player.y p) (Player.x q) (Player.y q) = 1.5 /\
   Player.stepBackCooldown q = CONFIG.STEPBACK_COOLDOWN /\
   Player.invulnerableTime q = CONFIG.STEPBACK_INVULN_TIME /\
   Player.stealCooldown q = Player.stealCooldown p /\
   Player.hasBall q = Player.hasBall p /\ Player.shotCharging q = Player.shotCharging p /\
   Player.stamina q = Player.stamina p).
Proof.
  unfold PlayerMotion.performStepBack. split; intro H.
  - rewrite (proj2 (Rltb_true _ _) H). reflexivity.
  - rewrite (proj2 (Rltb_false _ _) H). simpl.
    rewrite neg_cos, neg_sin.
    repeat split; try ring.
    unfold distance. apply sqrt_sq_eq; [lra|].
    pose proof (sin2_cos2 (PlayerMotion.facing b)) as T. unfold Rsqr in T.
    replace (Player.x p + - cos (PlayerMotion.facing b) * 1.5 - Player.x p) with
      (- cos (PlayerMotion.facing b) * 1.5) by ring.
    replace (Player.y p + - sin (PlayerMotion.facing b) * 1.5 - Player.y p) with
      (- sin (PlayerMotion.facing b) * 1.5) by ring.
    transitivity ((sin (PlayerMotion.facing b) * sin (PlayerMotion.facing b) +
                   cos (PlayerMotion.facing b) * cos (PlayerMotion.facing b)) * (1.5 * 1.5)); [ring|].
    rewrite T. ring.
Qed.



(** X13 ([Rules.scorePoints], [getWinner]): when neither side had reached
    [WIN_SCORE], a basket ends the game exactly when it brings the scoring
    side to [WIN_SCORE]. [getWinner] then names that side, and otherwise
    there is no winner. *)
Lemma X13_getWinner_after_score (r : Rules.Rules) (t : team) (x y : R) :
  (Rules.playerScore r < CONFIG.WIN_SCORE)%Z -> (Rules.aiScore r < CONFIG.WIN_SCORE)%Z ->
  let r' := Rules.scorePoints r t x y in
  let score := match t with TPlayer => Rules.playerScore r' | TAi => Rules.aiScore r' end in
  RulesMethods.getWinner r' = (if Z.geb score CONFIG.WIN_SCORE then Some t else None) /\
  (Rules.gameState r' = GameOver <-> (score >= CONFIG.WIN_SCORE)%Z).
Proof.
  intros Hp Ha; cbv zeta.
  unfold Rules.scorePoints.
  set (pts := if isThreePoint x y then _ else _).
  unfold RulesMethods.getWinner.
  destruct t; simpl;
  repeat (match goal with |- context [Z.geb ?a ?b] => destruct (Z.geb_spec a b) end; simpl in *);
  simpl; (split; [reflexivity || lia|]); (split; [intros; lia || discriminate | intros; lia || reflexivity]).
Qed.

Lemma X13_witness :
  RulesMethods.getWinner (Rules.scorePoints (Rules.new settings24) TPlayer 7.5 3) = None.
Proof.
  destruct (X13_getWinner_after_score (Rules.new settings24) TPlayer 7.5 3) as [H _];
    [simpl; unfold CONFIG.WIN_SCORE; lia | simpl; unfold CONFIG.WIN_SCORE; lia |].
  rewrite H. unfold Rules.scorePoints. simpl.
  destruct (isThreePoint 7.5 3); reflexivity.
Defined.

(** X14 ([handleFoul], [processFreeThrow]): a foul always asks for a free
    throw. After the free throw the fouled side has the ball for a check
    ball with a full shot clock, the foul count is one higher, the fouled
    side's score grows by [FOUL_FREE_THROW_POINTS] exactly when the shot is
    made, and the game is at check ball or over. *)
Lemma X14_foul_then_free_throw (r : Rules.Rules) (t : team) (made : bool) :
  let '(r1, needsFT) := RulesMethods.handleFoul r t in
  let r2 := RulesMethods.processFreeThrow r1 made in
  needsFT = true /\ Rules.gameState r1 = FreeThrow /\
  Rules.possession r2 = t /\ Rules.needsCheckBall r2 = true /\
  Rules.shotClock r2 = shotClockDuration (Rules.settings r) /\
  Rules.fouls r2 = (Rules.fouls r + 1)%Z /\
  Rules.playerScore r2 = (Rules.playerScore r +
     (if made && team_eqb t TPlayer then CONFIG.FOUL_FREE_THROW_POINTS else 0))%Z /\
  Rules.aiScore r2 = (Rules.aiScore r +
     (if made && team_eqb t TAi then CONFIG.FOUL_FREE_THROW_POINTS else 0))%Z /\
  (Rules.gameState r2 = CheckBall \/ Rules.gameState r2 = GameOver).
Proof.
  unfold RulesMethods.handleFoul, RulesMethods.processFreeThrow.
  destruct made, t; simpl;
  (destruct (_ || _); simpl; repeat split; try lia; auto).
Qed.

(** X15 ([Rules.getAIAccuracy], [registerShotAttempt]): in every game state
    the scene can reach, no AI shot has been registered, so the AI's
    accuracy reads 0. *)
Lemma X15_ai_accuracy_zero (s : GameScene.Scene) :
  Orchestrator.reachable s ->
  Rules.aiShots (GameScene.rules s) = 0%Z /\ RulesMethods.getAIAccuracy (GameScene.rules s) = 0.
Proof.
  intros [st H].
  assert (Hz : Rules.aiShots (GameScene.rules s) = 0%Z).
  { assert (H0 : Rules.aiShots (GameScene.rules (GameScene.enter st)) = 0%Z)
      by (unfold GameScene.enter; rewrite setup_rules; reflexivity).
    revert H0. induction H as [s0|s1 s2 s3 H12 _ IH]; intro H0; [exact H0|].
    apply IH. rewrite (step_aiShots _ _ H12). exact H0. }
  split; [exact Hz|]. unfold RulesMethods.getAIAccuracy. rewrite Hz. reflexivity.
Qed.

Lemma X15_witness :
  Orchestrator.reachable (GameScene.enter settings24) /\
  RulesMethods.getAIAccuracy (GameScene.rules (GameScene.enter settings24)) = 0.
Proof.
  assert (R0 : Orchestrator.reachable (GameScene.enter settings24))
    by (exists settings24; apply Orchestrator.steps_refl).
  split; [exact R0|]. exact (proj2 (X15_ai_accuracy_zero _ R0)).
Defined.

(** X16 ([AIController.executeShoot]): when the AI holds the ball and runs
    its shoot action every frame, the ball is released, in flight, within 36
    frames, and the human player is never touched. *)
Lemma X16_ai_shoot_releases_within_36 (acc : R) (s : GameScene.Scene) :
  Player.hasBall (GameScene.ai s) = true ->
  let s' := Nat.iter 36 (GameScene.ai_executeShoot acc) s in
  Player.hasBall (GameScene.ai s') = false /\ Ball.state (GameScene.ball s') = InFlight /\
  GameScene.player s' = GameScene.player s.
Proof.
  intros H; cbv zeta.
  assert (HP : forall n, GameScene.player (Nat.iter n (GameScene.ai_executeShoot acc) s) = GameScene.player s).
  { induction n as [|n IH]; [reflexivity|]. simpl Nat.iter.
    rewrite OrchestratorFacts.ai_shoot_player. exact IH. }
  destruct (ai_shoot_progress acc 35 s H) as [[L1 L2]|(_ & _ & R3 & R4)].
  - repeat split; auto.
  - exfalso. replace (INR 35) with 35 in R3 by (simpl; lra). lra.
Qed.

Lemma X16_witness :
  Ball.state (GameScene.ball (Nat.iter 36 (GameScene.ai_executeShoot CONFIG.STANDARD_SHOT_ACCURACY)
                                scene_ai_ball)) = InFlight.
Proof.
  exact (proj1 (proj2 (X16_ai_shoot_releases_within_36 CONFIG.STANDARD_SHOT_ACCURACY scene_ai_ball
                         eq_refl))).
Defined.

(** X17 ([checkPlayerCollision], [resolvePlayerCollision]): after the
    collision step of a live ball, two players at different spots no longer
    overlap. Two players on the very same spot are left as they are. *)
Lemma X17_collidePlayers_separates (s : GameScene.Scene) :
  let p := GameScene.player s in
  let a := GameScene.ai s in
  let s' := collidePlayers s in
  (0 < distance (Player.x p) (Player.y p) (Player.x a) (Player.y a) ->
   checkPlayerCollision (GameScene.player s') (GameScene.ai s') = false) /\
  (distance (Player.x p) (Player.y p) (Player.x a) (Player.y a) = 0 -> s' = s).
Proof.
  cbv zeta. unfold collidePlayers, checkPlayerCollision, circleIntersect.
  set (p := GameScene.player s). set (a := GameScene.ai s).
  set (d := distance (Player.x p) (Player.y p) (Player.x a) (Player.y a)).
  unfold CONFIG.PLAYER_RADIUS.
  destruct (Rltb d (0.35 + 0.35)) eqn:E.
  - apply Rltb_true in E. unfold resolvePlayerCollision; fold p a d. unfold CONFIG.PLAYER_RADIUS.
    split; intro Hd.
    + rewrite (proj2 (Rltb_true d (0.35 * 2))) by lra. rewrite (proj2 (Rltb_true 0 d)) by lra. simpl.
      pose proof (push_apart_distance (Player.x p) (Player.y p) (Player.x a) (Player.y a) (0.35 * 2)
                    Hd ltac:(lra)) as P. cbv zeta in P. fold d in P.
      rewrite P. apply Rltb_false. lra.
    + rewrite (proj2 (Rltb_false 0 d)) by lra. rewrite Bool.andb_false_r. simpl.
      destruct s; reflexivity.
  - apply Rltb_false in E. split; intro Hd; [|reflexivity].
    simpl. fold p a d. apply Rltb_false. exact E.
Qed.

(** X18 ([clampToCourtBounds]): the clamped position is always inside the
    court shrunk by the player radius, and a position already inside is
    left unchanged. *)
Lemma X18_clampToCourtBounds_spec (e : Player.Player) :
  let e' := clampToCourtBounds e in
  CONFIG.PLAYER_RADIUS <= Player.x e' <= CONFIG.COURT_WIDTH - CONFIG.PLAYER_RADIUS /\
  CONFIG.PLAYER_RADIUS <= Player.y e' <= CONFIG.COURT_LENGTH - CONFIG.PLAYER_RADIUS /\
  (CONFIG.PLAYER_RADIUS <= Player.x e <= CONFIG.COURT_WIDTH - CONFIG.PLAYER_RADIUS ->
   CONFIG.PLAYER_RADIUS <= Player.y e <= CONFIG.COURT_LENGTH - CONFIG.PLAYER_RADIUS ->
   e' = e).
Proof.
  cbv zeta. unfold clampToCourtBounds, CONFIG.PLAYER_RADIUS, CONFIG.COURT_WIDTH, CONFIG.COURT_LENGTH.
  cbv zeta.
  destruct (Rltb (Player.x e) 0.35) eqn:X1; [apply Rltb_true in X1|apply Rltb_false in X1];
  [rewrite (proj2 (Rltb_false (15 - 0.35) 0.35)) by lra
  |destruct (Rltb (15 - 0.35) (Player.x e)) eqn:X2; [apply Rltb_true in X2|apply Rltb_false in X2]];
  (destruct (Rltb (Player.y e) 0.35) eqn:Y1; [apply Rltb_true in Y1|apply Rltb_false in Y1];
  [rewrite (proj2 (Rltb_false (14 - 0.35) 0.35)) by lra
  |destruct (Rltb (14 - 0.35) (Player.y e)) eqn:Y2; [apply Rltb_true in Y2|apply Rltb_false in Y2]]);
  simpl; (split; [lra|]); (split; [lra|]); intros Hx Hy; try lra.
  destruct e; reflexivity.
Qed.

(** X19 ([AIController.calculateShootChance]): the chance is always in
    [0.3, 0.8]. It never rises when the AI is farther from the rim or less
    open. *)
Lemma X19_calculateShootChance_spec (d1 d2 o1 o2 : R) :
  0.3 <= calculateShootChance d1 o1 <= 0.8 /\
  (d1 <= d2 -> o2 <= o1 -> calculateShootChance d2 o2 <= calculateShootChance d1 o1).
Proof.
  unfold calculateShootChance.
  split.
  - destruct (Rltb d1 4.0), (Rltb d1 6.0), (Rltb 2.5 o1);
    unfold Rmin; destruct (Rle_dec _ _); lra.
  - intros Hd Ho.
    destruct (Rltb d1 4.0) eqn:A1, (Rltb d1 6.0) eqn:B1, (Rltb 2.5 o1) eqn:C1,
             (Rltb d2 4.0) eqn:A2, (Rltb d2 6.0) eqn:B2, (Rltb 2.5 o2) eqn:C2;
    rewrite ?Rltb_true, ?Rltb_false in *;
    try lra; unfold Rmin; repeat destruct (Rle_dec _ _); lra.
Qed.

(** X20 ([Random.next]): every value the generator returns is in [0, 1):
    the xorshift state can never be all ones, so the division by
    [0xFFFFFFFF] never reaches 1. *)
Lemma X20_next_in_unit (r : Random.Random) : 0 <= snd (Random.next r) < 1.
Proof. exact (RandomFacts.next_in_unit r). Qed.

(** X21 ([Random.int]): for [min <= max] the result is in [min, max],
    both ends included. *)
Lemma X21_int_in_range (r : Random.Random) (min max : Z) :
  (min <= max)%Z -> (min <= snd (Random.int r min max) <= max)%Z.
Proof. exact (RandomFacts.int_in_range r min max). Qed.

Lemma X21_witness : (0 <= snd (Random.int (Random.new 42) 0 5) <= 5)%Z.
Proof. exact (X21_int_in_range (Random.new 42) 0 5 ltac:(lia)). Defined.

(** X22 ([Random.choice]): on an empty array the result is [undefined]. On
    a non-empty array it is always an element of the array. *)
Lemma X22_choice_spec {A : Type} (r : Random.Random) (l : list A) :
  (l = nil -> snd (Random.choice r l) = None) /\
  (l <> nil -> exists a, snd (Random.choice r l) = Some a /\ In a l).
Proof.
  split; intro H.
  - subst l. unfold Random.choice. destruct (Random.int r 0 _) as [r' i]. simpl.
    unfold js_index. destruct (i <? 0)%Z; [reflexivity|]. destruct (Z.to_nat i); reflexivity.
  - assert (Hl : (1 <= Z.of_nat (length l))%Z) by (destruct l; [congruence|simpl; lia]).
    pose proof (RandomFacts.int_in_range r 0 (Z.of_nat (length l) - 1) ltac:(lia)) as Hi.
    unfold Random.choice. destruct (Random.int r 0 _) as [r' i]. simpl in *.
    apply RandomFacts.js_index_in. lia.
Qed.

(** X23 ([globalRandom.choice]): for a [Math.random] value in [0, 1) and a
    non-empty array, the result is always an element of the array. *)
Lemma X23_globalRandom_choice_spec {A : Type} (random : R) (l : list A) :
  0 <= random < 1 -> l <> nil -> exists a, globalRandom_choice random l = Some a /\ In a l.
Proof.
  intros Hr Hl. unfold globalRandom_choice.
  assert (Hn : (1 <= Z.of_nat (length l))%Z) by (destruct l; [congruence|simpl; lia]).
  rewrite INR_IZR_INZ.
  pose proof (RandomFacts.floor_index random (Z.of_nat (length l)) Hr Hn).
  apply RandomFacts.js_index_in. lia.
Qed.

Lemma X23_witness : exists a, globalRandom_choice 0.5 (1 :: 2 :: 3 :: nil)%nat = Some a /\ In a (1 :: 2 :: 3 :: nil)%nat.
Proof. exact (X23_globalRandom_choice_spec 0.5 (1 :: 2 :: 3 :: nil)%nat ltac:(lra) ltac:(discriminate)). Defined.

(** X24 ([Random] constructor, [next]): a generator whose state is 0
    modulo 2^32 (for instance [new Random(0)]) stays in that state and
    returns 0 forever. *)
Lemma X24_zero_state_stuck (r : Random.Random) (n : nat) :
  (Random.state r mod 2 ^ 32 = 0)%Z ->
  let r' := Nat.iter n (fun g => fst (Random.next g)) r in
  (Random.state r' mod 2 ^ 32 = 0)%Z /\ snd (Random.next r') = 0.
Proof.
  intros H; cbv zeta.
  assert (Z0 : forall g, (Random.state g mod 2 ^ 32 = 0)%Z ->
               Random.next g = (Random.mkRandom (Random.seed g) 0, 0)).
  { intros g Hg. unfold Random.next.
    assert (T : Random.toInt32 (Random.state g) = 0%Z) by (unfold Random.toInt32; rewrite Hg; reflexivity).
    cbv zeta.
    assert (E1 : Random.xor (Random.state g) (Random.shl (Random.state g) 13) = 0%Z)
      by (unfold Random.xor, Random.shl; rewrite T; reflexivity).
    rewrite E1. change (Random.xor 0 (Random.sar 0 17)) with 0%Z.
    change (Random.xor 0 (Random.shl 0 5)) with 0%Z.
    change (Random.toUint32 0) with 0%Z. unfold Rdiv. rewrite Rmult_0_l. reflexivity. }
  induction n as [|n IH].
  - simpl Nat.iter. split; [exact H|]. rewrite (Z0 r H). reflexivity.
  - rewrite Nat.iter_succ. cbv beta. destruct IH as [IH _].
    rewrite (Z0 _ IH). simpl fst. split; [reflexivity|].
    rewrite Z0 by reflexivity. reflexivity.
Qed.

Lemma X24_witness :
  snd (Random.next (Nat.iter 3 (fun g => fst (Random.next g)) (Random.new 0))) = 0.
Proof. exact (proj2 (X24_zero_state_stuck (Random.new 0) 3 eq_refl)). Defined.

(** X25 ([setupInitialPositions], steal branch of [handlePlayerInput]):
    right after the check-ball setup the two players stand 4 m apart, so a
    steal attempt by the human player changes nothing. *)
Lemma X25_setup_blocks_steal (s : GameScene.Scene) (u : R) :
  let s1 := GameScene.setupInitialPositions s in
  GameScene.player_steal s1 u = s1.
Proof.
  cbv zeta. unfold GameScene.player_steal.
  assert (Hd : distance (CONFIG.COURT_WIDTH / 2) (CONFIG.FREE_THROW_DISTANCE + CONFIG.BACKBOARD_DISTANCE - 2)
                 (CONFIG.COURT_WIDTH / 2) (CONFIG.FREE_THROW_DISTANCE + CONFIG.BACKBOARD_DISTANCE + 2) = 4)
    by (unfold distance; apply sqrt_sq_eq; lra).
  assert (Hd' : distance (CONFIG.COURT_WIDTH / 2) (CONFIG.FREE_THROW_DISTANCE + CONFIG.BACKBOARD_DISTANCE + 2)
                 (CONFIG.COURT_WIDTH / 2) (CONFIG.FREE_THROW_DISTANCE + CONFIG.BACKBOARD_DISTANCE - 2) = 4)
    by (unfold distance; apply sqrt_sq_eq; lra).
  unfold GameScene.setupInitialPositions. simpl GameScene.rules.
  destruct (Rules.possession (GameScene.rules s)); simpl.
  - unfold Player.attemptSteal. simpl.
    destruct (Rltb 0 _); reflexivity.
  - unfold Player.attemptSteal. simpl.
    destruct (Rltb 0 (Player.stealCooldown (GameScene.player s))); [reflexivity|].
    destruct (Rltb 0 (Player.invulnerableTime (GameScene.ai s))); [reflexivity|].
    rewrite Hd. unfold CONFIG.PLAYER_RADIUS. rewrite (proj2 (Rltb_true (0.35 * 3) 4)) by lra.
    reflexivity.
Qed.

(** X26 (reset key R of [handleInput]): the ball goes to the side that did
    not hold it: the AI if the player held it, the player if only the AI did.
    That side holds it, and the game is back at check ball, with the shot
    clock off and no out-of-bounds state. *)
Lemma X26_resetKey_spec (s : GameScene.Scene) :
  let s' := GameScene.handleResetKey s in
  let t := Rules.possession (GameScene.rules s') in
  (Player.hasBall (GameScene.player s) = true -> t = TAi) /\
  (Player.hasBall (GameScene.player s) = false -> Player.hasBall (GameScene.ai s) = true -> t = TPlayer) /\
  Ball.state (GameScene.ball s') = Held /\ Ball.holderId (GameScene.ball s') = Some t /\
  Player.hasBall (GameScene.player s') = team_eqb t TPlayer /\
  Player.hasBall (GameScene.ai s') = team_eqb t TAi /\
  Rules.gameState (GameScene.rules s') = CheckBall /\
  Rules.needsCheckBall (GameScene.rules s') = true /\
  Rules.shotClockActive (GameScene.rules s') = false /\
  GameScene.outOfBoundsTimer s' = None /\ Ball.isOutOfBounds (GameScene.ball s') = false.
Proof.
  cbv zeta. unfold GameScene.handleResetKey. cbv zeta.
  generalize (Player.hasBall (GameScene.player s)) as hp.
  generalize (Player.hasBall (GameScene.ai s)) as ha.
  intros ha hp.
  set (lp := if hp then TPlayer else if ha then TAi else _).
  assert (L1 : hp = true -> lp = TPlayer) by (intro; subst hp; reflexivity).
  assert (L2 : hp = false -> ha = true -> lp = TAi) by (intros; subst hp ha; reflexivity).
  clearbody lp.
  destruct lp; simpl;
  (split; [intro H; try (rewrite (L1 H) in *); try reflexivity; specialize (L1 H); discriminate|]);
  (split; [intros H H'; try reflexivity; specialize (L2 H H'); discriminate|]);
  repeat split.
Qed.

(** X27 (shot branch of [handlePlayerInput]): pressing the shot key with the
    ball starts a charge with power in [MIN_SHOT_POWER, MAX_SHOT_POWER].
    Releasing it on the next frame puts the ball in flight and leaves the
    player without the ball. It registers one player shot and no AI shot,
    and leaves the AI untouched. *)
Lemma X27_press_release_shot (s : GameScene.Scene) (dt1 dt2 : R) :
  Player.hasBall (GameScene.player s) = true ->
  Player.shotCharging (GameScene.player s) = false ->
  let s1 := GameScene.player_shot_input s true dt1 in
  let s2 := GameScene.player_shot_input s1 false dt2 in
  Player.shotCharging (GameScene.player s1) = true /\
  CONFIG.MIN_SHOT_POWER <= Player.shotPower (GameScene.player s1) <= CONFIG.MAX_SHOT_POWER /\
  Ball.state (GameScene.ball s2) = InFlight /\
  Ball.holderId (GameScene.ball s2) = Ball.holderId (GameScene.ball s) /\
  Player.hasBall (GameScene.player s2) = false /\
  Player.shotCharging (GameScene.player s2) = false /\
  Rules.playerShots (GameScene.rules s2) = (Rules.playerShots (GameScene.rules s) + 1)%Z /\
  Rules.aiShots (GameScene.rules s2) = Rules.aiShots (GameScene.rules s) /\
  GameScene.ai s2 = GameScene.ai s.
Proof.
  intros Hb Hc; cbv zeta.
  unfold GameScene.player_shot_input. rewrite Hb, Hc. simpl.
  unfold Player.startShot. rewrite Hb. simpl.
  unfold Player.chargeShot. simpl.
  unfold clamp, CONFIG.MIN_SHOT_POWER, CONFIG.MAX_SHOT_POWER.
  split; [reflexivity|].
  split; [split; [apply Rmin_glb; [apply Rmax_r|lra] | apply Rmin_r]|].
  unfold Player.executeShot; simpl. rewrite ?Hb. simpl.
  repeat split; reflexivity.
Qed.

Lemma X27_witness :
  Ball.state (GameScene.ball (GameScene.player_shot_input
     (GameScene.player_shot_input (GameScene.enter settings24) true (1 / 60)) false (1 / 60))) = InFlight.
Proof.
  exact (proj1 (proj2 (proj2 (X27_press_release_shot (GameScene.enter settings24) (1 / 60) (1 / 60)
                                eq_refl eq_refl)))).
Defined.
